(** * Ameena AI: the quiz session and the dashboard statistics

    A shallow embedding of [pages/QuizPage.tsx] (the quiz session: loading,
    countdown, answer capture, grading, persistence, feedback) and of the
    statistics of [pages/DashboardPage.tsx], with the properties the
    specification states about them.

    Conventions.
    - A JavaScript string is a [string] whose characters are the UTF-16 code
      units U+0000..U+00FF; [trim] and [toLowerCase] are the ECMAScript
      functions restricted to that range.
    - A JavaScript object used as a dictionary is a [gmap string _]; question
      ids that name inherited properties of [Object.prototype] are outside
      the model.
    - React state is an explicit record.  In [QuizPage] every event finds
      the page rendered from the latest state (the render of the previous
      update has been committed), so a handler reads that state and returns
      the next one; [Closures] keeps the state the last render read apart
      from the state after later updates, for the callbacks that run between
      two renders.  An [await] splits a handler into the part that runs
      before the call is issued and the part that runs when the call
      settles.
    - A JavaScript number that holds a count is a [nat] or a [Z]; the
      percentages are IEEE 754 binary64 values ([float]). *)

From Stdlib Require Import ZArith Floats Uint63 Ascii String.
From stdpp Require Import gmap strings list pretty sorting.

Open Scope string_scope.
Open Scope list_scope.

(** ** JavaScript primitives *)

Module JS.

(** [WhiteSpace] and [LineTerminator] code units below U+0100: TAB, LF, VT,
    FF, CR, SP and NBSP. *)
Definition isWhiteSpace (c : ascii) : bool :=
  let n := N_of_ascii c in
  ((9 <=? n) && (n <=? 13) || (n =? 32) || (n =? 160))%N.

Fixpoint trimStart (s : string) : string :=
  match s with
  | EmptyString => EmptyString
  | String c s' => if isWhiteSpace c then trimStart s' else s
  end.

Fixpoint trimEnd (s : string) : string :=
  match s with
  | EmptyString => EmptyString
  | String c s' =>
      match trimEnd s' with
      | EmptyString => if isWhiteSpace c then EmptyString else String c EmptyString
      | r => String c r
      end
  end.

(** [String.prototype.trim] *)
Definition trim (s : string) : string := trimEnd (trimStart s).

(** Upper-case code units below U+0100: A..Z, and U+00C0..U+00DE without the
    multiplication sign U+00D7; each is 32 below its lower-case form. *)
Definition isUpperCase (c : ascii) : bool :=
  let n := N_of_ascii c in
  ((65 <=? n) && (n <=? 90) || (192 <=? n) && (n <=? 222) && negb (n =? 215))%N.

Definition lowerChar (c : ascii) : ascii :=
  if isUpperCase c then ascii_of_N (N_of_ascii c + 32) else c.

(** [String.prototype.toLowerCase] *)
Fixpoint toLowerCase (s : string) : string :=
  match s with
  | EmptyString => EmptyString
  | String c s' => String (lowerChar c) (toLowerCase s')
  end.

(** [x || y] on a string that may be [undefined]: the empty string is falsy. *)
Definition truthy (o : option string) : bool :=
  match o with
  | Some s => negb (String.eqb s "")
  | None => false
  end.

(** A count as a JavaScript number (exact below 2^53). *)
Definition ofZ (z : Z) : float := PrimFloat.of_uint63 (Uint63.of_Z z).
Definition number (n : nat) : float := ofZ (Z.of_nat n).

(** [floor (scale * x + 1/2)] for the finite [x = m * 2^e], in exact
    arithmetic. *)
Definition scaledHalfUp (scale m e : Z) : Z :=
  if (0 <=? e)%Z then (scale * m * 2 ^ e)%Z
  else ((2 * scale * m + 2 ^ (- e)) / 2 ^ (1 - e))%Z.

(** The text of a number: either decimal digits, standing for
    [n / 10^fractionDigits] with a sign, or the text [Number::toString]
    gives for [x]. *)
Inductive NumberText :=
  | Digits (negative : bool) (n : Z) (fractionDigits : nat)
  | ToString (x : float).

(** [Number.prototype.toFixed]: a number that is not finite or is at least
    10^21 in magnitude is written by [Number::toString]; otherwise the
    digits are those of the integer [n] for which [n / 10^fractionDigits]
    is closest to the magnitude, the larger one on a tie. *)
Definition toFixed (fractionDigits : nat) (x : float) : NumberText :=
  match Prim2SF x with
  | S754_zero _ => Digits false 0 fractionDigits
  | S754_finite negative m e =>
      if PrimFloat.leb 1e21 (PrimFloat.abs x) then ToString x
      else Digits negative
             (scaledHalfUp (10 ^ Z.of_nat fractionDigits) (Z.pos m) e)
             fractionDigits
  | _ => ToString x
  end.

(** [parseFloat] on such a text: the binary64 value nearest to the decimal
    (correctly rounded for [n] below 2^53 and at most 22 fraction digits),
    and [x] itself for the text of [x]. *)
Definition parseFloat (t : NumberText) : float :=
  match t with
  | Digits negative n fractionDigits =>
      let v := PrimFloat.div (ofZ n) (ofZ (10 ^ Z.of_nat fractionDigits)) in
      if negative then PrimFloat.opp v else v
  | ToString x => x
  end.

(** [`${Math.round(x)}`]: [Math.round] is [floor (x + 1/2)] in exact
    arithmetic; the digits are those of [Number::toString] for an integer
    below 10^21 in magnitude. *)
Definition roundedText (x : float) : string :=
  match Prim2SF x with
  | S754_zero _ => "0"
  | S754_finite negative m e =>
      pretty (scaledHalfUp 1 (if negative then Z.neg m else Z.pos m) e)
  | S754_infinity negative => if negative then "-Infinity" else "Infinity"
  | S754_nan => "NaN"
  end.

End JS.

(** ** Data model ([types.ts], as used by the two pages) *)

Inductive QuestionType := mcq | short_answer.

(** A question as the gateway returns it: the id may be missing. *)
Record GeneratedQuestion := {
  gen_id : option string;
  gen_questionText : string;
  gen_type : QuestionType;
  gen_options : option (list string);
  (** [None]: the gateway supplied something that is not a string *)
  gen_correctAnswer : option string;
}.

(** A question of the session.  [userAnswer] and [isCorrect] are absent until
    the quiz is graded. *)
Record QuizQuestion := {
  question_id : string;
  questionText : string;
  type : QuestionType;
  options : option (list string);
  correctAnswer : option string;
  userAnswer : option string;
  isCorrect : option bool;
}.

Record Quiz := {
  quiz_id : string;
  quiz_contentId : string;
  quiz_questions : list QuizQuestion;
  (** [None]: a persisted record whose [score] is not a number *)
  quiz_score : option nat;
  (** the clock reading whose ISO 8601 rendering is stored *)
  quiz_timestamp : Z;
  durationSeconds : Z;
}.

Record AiGeneratedFeedback := { text : string }.

Inductive QuizState := loading | taking | submitting | results.

Global Instance QuizState_eq_dec : EqDecision QuizState.
Proof. solve_decision. Defined.

(** ** Grading ([handleSubmitQuiz], the [questions.map] callback) *)

Module Grading.

(** One call of the callback: the graded question and the updated
    [calculatedScore]. *)
Definition gradeQuestion (userAnswers : gmap string string)
    (q : QuizQuestion) (calculatedScore : nat) : QuizQuestion * nat :=
  let userAnswer := userAnswers !! question_id q in
  let userAnswerProcessed := JS.toLowerCase <$> (JS.trim <$> userAnswer) in
  let isCorrect :=
    match correctAnswer q with
    | Some c =>
        match userAnswerProcessed with
        | Some u => String.eqb u (JS.toLowerCase (JS.trim c))
        | None => false
        end
    | None => false
    end in
  ({| question_id := question_id q; questionText := questionText q;
      type := type q; options := options q; correctAnswer := correctAnswer q;
      userAnswer := userAnswer; isCorrect := Some isCorrect |},
   if isCorrect then S calculatedScore else calculatedScore).

(** [Array.prototype.map] with a callback that updates a counter. *)
Fixpoint gradeAll (userAnswers : gmap string string)
    (questions : list QuizQuestion) (calculatedScore : nat)
    : list QuizQuestion * nat :=
  match questions with
  | [] => ([], calculatedScore)
  | q :: rest =>
      let '(q', n1) := gradeQuestion userAnswers q calculatedScore in
      let '(rest', n2) := gradeAll userAnswers rest n1 in
      (q' :: rest', n2)
  end.

(** The graded copy of one question. *)
Definition grade (userAnswers : gmap string string) (q : QuizQuestion)
    : QuizQuestion :=
  (gradeQuestion userAnswers q 0).1.

(** A graded question that the results view shows as correct. *)
Definition judgedCorrect (q : QuizQuestion) : bool :=
  bool_decide (isCorrect q = Some true).

End Grading.


(** ** The Content Store *)

Module ContentStore.

(** Modelled from the spec: [contexts/UploadedContentContext] is not among the
    sources.  A study material, with the fields the two pages read. *)
Record StudyMaterial := {
  material_id : string;
  title : string;
  extractedText : option string;
}.

(** Modelled from the spec: the store of [contexts/UploadedContentContext],
    the materials in insertion order and the quiz history of each content
    id. *)
Record Store := {
  studyMaterials : list StudyMaterial;
  quizzes : gmap string (list Quiz);
}.

(** Modelled from the spec: [getStudyMaterialById] of
    [contexts/UploadedContentContext], a read-only lookup that signals a
    missing material without raising. *)
Definition getStudyMaterialById (id : string) (s : Store) : option StudyMaterial :=
  List.find (fun m => String.eqb (material_id m) id) (studyMaterials s).

(** Modelled from the spec: [addQuizResult] of
    [contexts/UploadedContentContext] appends the quiz to the history of
    [contentId], whether or not a material with that id exists. *)
Definition addQuizResult (contentId : string) (quiz : Quiz) (s : Store) : Store :=
  {| studyMaterials := studyMaterials s;
     quizzes := <[contentId := default [] (quizzes s !! contentId) ++ [quiz]]> (quizzes s) |}.

(** Modelled from the spec: [getQuizzesForContent] of
    [contexts/UploadedContentContext], the history in insertion order.  Its
    callers guard the result with [?.] and type it [Quiz[] | undefined], so a
    content id without history yields [None]. *)
Definition getQuizzesForContent (contentId : string) (s : Store) : option (list Quiz) :=
  quizzes s !! contentId.

End ContentStore.

(** ** [constants.ts] *)

Class Constants := {
  DEFAULT_QUIZ_DURATION_SECONDS : Z;
  DEFAULT_QUIZ_QUESTIONS_count : nat;
}.

(** A settled promise of the gateway. *)
Inductive Settled (A : Type) :=
  | Fulfilled (a : A)
  | Rejected.
Arguments Fulfilled {A} a.
Arguments Rejected {A}.

(** ** [pages/QuizPage.tsx] *)

Module QuizPage.
Import ContentStore.

(** The route parameter and the state hooks of the component. *)
Record State := {
  contentId : option string;
  questions : list QuizQuestion;
  currentQuestionIndex : Z;
  userAnswers : gmap string string;
  timeLeft : Z;
  quizState : QuizState;
  score : nat;
  feedback : option AiGeneratedFeedback;
  error : option string;
}.

(** The arguments of a call of [geminiService.generateQuizQuestions]. *)
Record QuestionsRequest := {
  qr_sourceText : string;
  qr_count : nat;
}.

(** The arguments of a call of [geminiService.generateFeedbackOnQuiz]. *)
Record FeedbackRequest := {
  fr_score : nat;
  fr_totalQuestions : nat;
  fr_sourceText : option string;
}.

(** The component, the store it writes to, and the gateway calls that have
    been issued and have not settled yet (each with a suspended handler
    behind it). *)
Record World := {
  page : State;
  store : Store;
  awaitingQuestions : list QuestionsRequest;
  awaitingFeedback : list FeedbackRequest;
}.

Definition setQuestions (v : list QuizQuestion) (s : State) : State :=
  {| contentId := contentId s; questions := v;
     currentQuestionIndex := currentQuestionIndex s;
     userAnswers := userAnswers s; timeLeft := timeLeft s;
     quizState := quizState s; score := score s; feedback := feedback s;
     error := error s |}.

Definition setCurrentQuestionIndex (f : Z -> Z) (s : State) : State :=
  {| contentId := contentId s; questions := questions s;
     currentQuestionIndex := f (currentQuestionIndex s);
     userAnswers := userAnswers s; timeLeft := timeLeft s;
     quizState := quizState s; score := score s; feedback := feedback s;
     error := error s |}.

Definition setUserAnswers (f : gmap string string -> gmap string string)
    (s : State) : State :=
  {| contentId := contentId s; questions := questions s;
     currentQuestionIndex := currentQuestionIndex s;
     userAnswers := f (userAnswers s); timeLeft := timeLeft s;
     quizState := quizState s; score := score s; feedback := feedback s;
     error := error s |}.

Definition setTimeLeft (f : Z -> Z) (s : State) : State :=
  {| contentId := contentId s; questions := questions s;
     currentQuestionIndex := currentQuestionIndex s;
     userAnswers := userAnswers s; timeLeft := f (timeLeft s);
     quizState := quizState s; score := score s; feedback := feedback s;
     error := error s |}.

Definition setQuizState (v : QuizState) (s : State) : State :=
  {| contentId := contentId s; questions := questions s;
     currentQuestionIndex := currentQuestionIndex s;
     userAnswers := userAnswers s; timeLeft := timeLeft s;
     quizState := v; score := score s; feedback := feedback s;
     error := error s |}.

Definition setScore (v : nat) (s : State) : State :=
  {| contentId := contentId s; questions := questions s;
     currentQuestionIndex := currentQuestionIndex s;
     userAnswers := userAnswers s; timeLeft := timeLeft s;
     quizState := quizState s; score := v; feedback := feedback s;
     error := error s |}.

Definition setFeedback (v : option AiGeneratedFeedback) (s : State) : State :=
  {| contentId := contentId s; questions := questions s;
     currentQuestionIndex := currentQuestionIndex s;
     userAnswers := userAnswers s; timeLeft := timeLeft s;
     quizState := quizState s; score := score s; feedback := v;
     error := error s |}.

Definition setError (v : option string) (s : State) : State :=
  {| contentId := contentId s; questions := questions s;
     currentQuestionIndex := currentQuestionIndex s;
     userAnswers := userAnswers s; timeLeft := timeLeft s;
     quizState := quizState s; score := score s; feedback := feedback s;
     error := v |}.

(** The component's state update, the rest of the world unchanged. *)
Definition render (f : State -> State) (w : World) : World :=
  {| page := f (page w); store := store w;
     awaitingQuestions := awaitingQuestions w;
     awaitingFeedback := awaitingFeedback w |}.

(** The results view: [percentage], and the text inside [CircularProgress]. *)
Definition percentage (s : State) : float :=
  if (0 <? length (questions s))%nat
  then (JS.number (score s) / JS.number (length (questions s)) * 100)%float
  else 0%float.

Definition percentageText (s : State) : string :=
  JS.roundedText (percentage s) +:+ "%".

Section Component.
Context {constants : Constants}.

(** The hooks at the first render. *)
Definition initialState (contentId : option string) : State :=
  {| contentId := contentId; questions := []; currentQuestionIndex := 0;
     userAnswers := ∅; timeLeft := DEFAULT_QUIZ_DURATION_SECONDS;
     quizState := loading; score := 0; feedback := None; error := None |}.

Definition initialWorld (contentId : option string) (st : Store) : World :=
  {| page := initialState contentId; store := st;
     awaitingQuestions := []; awaitingFeedback := [] |}.

(** [const material = contentId ? getStudyMaterialById(contentId) : null] *)
Definition material (w : World) : option StudyMaterial :=
  match contentId (page w) with
  | Some c => if JS.truthy (Some c) then getStudyMaterialById c (store w) else None
  | None => None
  end.

(** [material?.extractedText] *)
Definition materialText (w : World) : option string :=
  material w ≫= extractedText.

(** The id of a loaded question: [q.id || `q-${...}`], where [suffix] is
    what [Math.random().toString(36).substr(2, 9)] yields if it is drawn. *)
Definition questionId (supplied : option string) (suffix : string) : string :=
  match supplied with
  | Some i => if JS.truthy supplied then i else "q-" +:+ suffix
  | None => "q-" +:+ suffix
  end.

(** [generatedQuestions.map(q => ({...q, id: q.id || ...}))]; [random k] is
    the [k]-th suffix drawn from [Math.random], and a suffix is drawn only
    for a question whose own id is falsy. *)
Fixpoint assignIds (random : nat -> string) (drawn : nat)
    (generatedQuestions : list GeneratedQuestion) : list QuizQuestion :=
  match generatedQuestions with
  | [] => []
  | q :: rest =>
      {| question_id := questionId (gen_id q) (random drawn);
         questionText := gen_questionText q; type := gen_type q;
         options := gen_options q; correctAnswer := gen_correctAnswer q;
         userAnswer := None; isCorrect := None |}
      :: assignIds random (if JS.truthy (gen_id q) then drawn else S drawn) rest
  end.

(** [loadQuestions] up to its [await]. *)
Definition loadQuestions_begin (w : World) : World :=
  if negb (JS.truthy (materialText w)) then
    render (fun s => setQuizState results
      (setError (Some "Content not found or empty. Cannot generate quiz.") s)) w
  else
    {| page := setError None (setQuizState loading (page w));
       store := store w;
       awaitingQuestions := awaitingQuestions w ++
         [{| qr_sourceText := default "" (materialText w);
             qr_count := DEFAULT_QUIZ_QUESTIONS_count |}];
       awaitingFeedback := awaitingFeedback w |}.

(** [loadQuestions] from its [await] on, once the gateway call has settled. *)
Definition loadQuestions_resume (random : nat -> string)
    (r : Settled (list GeneratedQuestion)) (w : World) : World :=
  match awaitingQuestions w with
  | [] => w
  | _ :: pending =>
      let w' := {| page := page w; store := store w;
                   awaitingQuestions := pending;
                   awaitingFeedback := awaitingFeedback w |} in
      match r with
      | Fulfilled generatedQuestions =>
          if (length generatedQuestions =? 0)%nat then
            render (fun s => setQuizState results (setError (Some
              "Could not generate quiz. Content might be too short or AI service unavailable.") s)) w'
          else
            render (fun s =>
              setTimeLeft (fun _ => DEFAULT_QUIZ_DURATION_SECONDS)
                (setQuizState taking
                  (setQuestions (assignIds random 0 generatedQuestions) s))) w'
      | Rejected =>
          render (fun s => setQuizState results (setError (Some
            "Failed to load quiz. Check connection or API key.") s)) w'
      end
  end.

(** The effect that starts the session: without an API key the page goes
    to the results view, otherwise the questions are requested. *)
Definition mountEffect (apiKey : bool) (w : World) : World :=
  if negb apiKey then
    render (fun s => setQuizState results
      (setError (Some "API Key not configured. Quiz unavailable.") s)) w
  else loadQuestions_begin w.

(** The [if (contentId) { ... }] block of [handleSubmitQuiz]: the quiz
    record and its persistence; [now] is the clock reading of [Date.now()]
    and [new Date()]. *)
Definition persistQuizResult (now : Z) (s : State)
    (answeredQuestions : list QuizQuestion) (calculatedScore : nat)
    (st : Store) : Store :=
  match contentId s with
  | Some c =>
      if JS.truthy (Some c) then
        addQuizResult c
          {| quiz_id := "quiz_" +:+ pretty now; quiz_contentId := c;
             quiz_questions := answeredQuestions;
             quiz_score := Some calculatedScore;
             quiz_timestamp := now;
             durationSeconds := DEFAULT_QUIZ_DURATION_SECONDS - timeLeft s |}
          st
      else st
  | None => st
  end.

(** [handleSubmitQuiz] up to its [await]. *)
Definition handleSubmitQuiz_begin (now : Z) (w : World) : World :=
  let s := page w in
  if bool_decide (quizState s = submitting) || bool_decide (quizState s = results)
  then w
  else
    let '(answeredQuestions, calculatedScore) :=
      Grading.gradeAll (userAnswers s) (questions s) 0 in
    {| page := setScore calculatedScore
                 (setQuestions answeredQuestions (setQuizState submitting s));
       store := persistQuizResult now s answeredQuestions calculatedScore (store w);
       awaitingQuestions := awaitingQuestions w;
       awaitingFeedback := awaitingFeedback w ++
         [{| fr_score := calculatedScore;
             fr_totalQuestions := length (questions s);
             fr_sourceText := materialText w |}] |}.

(** [handleSubmitQuiz] from its [await] on, once the feedback call has
    settled. *)
Definition handleSubmitQuiz_resume (r : Settled AiGeneratedFeedback)
    (w : World) : World :=
  match awaitingFeedback w with
  | [] => w
  | _ :: pending =>
      let generatedFeedback :=
        match r with
        | Fulfilled f => f
        | Rejected => {| text := "Could not generate AI feedback." |}
        end in
      {| page := setQuizState results
                   (setFeedback (Some generatedFeedback) (page w));
         store := store w;
         awaitingQuestions := awaitingQuestions w;
         awaitingFeedback := pending |}
  end.

(** [handleAnswerChange] *)
Definition handleAnswerChange (questionId answer : string) (w : World) : World :=
  render (setUserAnswers (fun prev => <[questionId := answer]> prev)) w.

(** The timeout armed by the timer effect is pending exactly in these
    states; every other run of the effect or of its cleanup clears it. *)
Definition timerArmed (w : World) : bool :=
  bool_decide (quizState (page w) = taking) && (0 <? timeLeft (page w))%Z.

(** The callback of the timeout. *)
Definition timeoutCallback (w : World) : World :=
  if timerArmed w then render (setTimeLeft (fun prevTime => prevTime - 1)%Z) w
  else w.

(** The timer effect, run after a render that changed one of its
    dependencies. *)
Definition timerEffect (now : Z) (w : World) : World :=
  if bool_decide (quizState (page w) = taking) && (0 <? timeLeft (page w))%Z
  then w
  else if (timeLeft (page w) =? 0)%Z && bool_decide (quizState (page w) = taking)
  then handleSubmitQuiz_begin now w
  else w.

(** What can happen to a mounted page. *)
Inductive Event :=
  | QuestionsSettled (random : nat -> string) (r : Settled (list GeneratedQuestion))
  | TimeoutFired
  | AnswerChanged (questionId answer : string)
  | PreviousClicked
  | NextClicked
  | SubmitClicked
  | FeedbackSettled (r : Settled AiGeneratedFeedback).

(** One event at clock reading [now] on a page whose render is up to date,
    followed by the next render and by its timer effect when the event
    changed a dependency of the effect (the index of the displayed question
    is not one).  The callbacks that run before the next render is
    committed are in [Closures]. *)
Definition step (now : Z) (e : Event) (w : World) : World :=
  match e with
  | QuestionsSettled random r => timerEffect now (loadQuestions_resume random r w)
  | TimeoutFired => timerEffect now (timeoutCallback w)
  | AnswerChanged q a => timerEffect now (handleAnswerChange q a w)
  | PreviousClicked =>
      render (setCurrentQuestionIndex (fun prev => Z.max 0 (prev - 1))) w
  | NextClicked =>
      render (setCurrentQuestionIndex (fun prev =>
        Z.min (Z.of_nat (length (questions (page w))) - 1) (prev + 1))) w
  | SubmitClicked => timerEffect now (handleSubmitQuiz_begin now w)
  | FeedbackSettled r => timerEffect now (handleSubmitQuiz_resume r w)
  end.

Fixpoint run (events : list (Z * Event)) (w : World) : World :=
  match events with
  | [] => w
  | (now, e) :: rest => run rest (step now e w)
  end.

End Component.
End QuizPage.

(** ** [pages/DashboardPage.tsx] *)

Module DashboardPage.
Import ContentStore.

(** The body of [quizzes?.forEach] in [getAverageQuizScore], on the pair
    [(totalScore, totalQuestionsInScoredQuizzes)]. *)
Definition countQuiz (totals : nat * nat) (quiz : Quiz) : nat * nat :=
  match quiz_score quiz with
  | Some quizScore =>
      if (0 <? length (quiz_questions quiz))%nat
      then (fst totals + quizScore, snd totals + length (quiz_questions quiz))%nat
      else totals
  | None => totals
  end.

(** The body of [studyMaterials.forEach] in [getAverageQuizScore]. *)
Definition countMaterial (s : Store) (totals : nat * nat)
    (material : StudyMaterial) : nat * nat :=
  match getQuizzesForContent (material_id material) s with
  | Some quizzes => fold_left countQuiz quizzes totals
  | None => totals
  end.

(** [getAverageQuizScore] *)
Definition getAverageQuizScore (s : Store) : float :=
  let '(totalScore, totalQuestionsInScoredQuizzes) :=
    fold_left (countMaterial s) (studyMaterials s) (0, 0)%nat in
  if (totalQuestionsInScoredQuizzes =? 0)%nat then 0%float
  else JS.parseFloat (JS.toFixed 1
         (JS.number totalScore / JS.number totalQuestionsInScoredQuizzes * 100)%float).

(** [lastQuizScore] of [MaterialCard]: the text shown as the last score, if
    any. *)
Definition lastQuizScore (quizzes : option (list Quiz)) : option JS.NumberText :=
  match quizzes with
  | Some qs =>
      match last qs with
      | Some lastQuiz =>
          match quiz_score lastQuiz with
          | Some lastScore =>
              if (0 <? length (quiz_questions lastQuiz))%nat
              then Some (JS.toFixed 0
                     (JS.number lastScore
                      / JS.number (length (quiz_questions lastQuiz)) * 100)%float)
              else None
          | None => None
          end
      | None => None
      end
  | None => None
  end.

End DashboardPage.


(** ** Sample data *)

Module Sample.
Import ContentStore QuizPage.

#[local] Instance constants : Constants :=
  {| DEFAULT_QUIZ_DURATION_SECONDS := 3; DEFAULT_QUIZ_QUESTIONS_count := 5 |}.

Definition capital : QuizQuestion :=
  {| question_id := "q1"; questionText := "What is the capital of France?";
     type := short_answer; options := None; correctAnswer := Some "Paris";
     userAnswer := None; isCorrect := None |}.

Definition river : QuizQuestion :=
  {| question_id := "q2"; questionText := "Which river crosses Paris?";
     type := mcq; options := Some ["Seine"; "Loire"; "Rhone"];
     correctAnswer := Some "Seine"; userAnswer := None; isCorrect := None |}.

Definition notes : StudyMaterial :=
  {| material_id := "m1"; title := "France";
     extractedText := Some "Paris is the capital of France." |}.

Definition library : Store :=
  {| studyMaterials := [notes]; quizzes := ∅ |}.

(** A session on [notes] in which both questions are displayed and the
    first one has been answered. *)
Definition session : World :=
  {| page := {| contentId := Some "m1"; questions := [capital; river];
                currentQuestionIndex := 0;
                userAnswers := {["q1" := "  paris "]}; timeLeft := 1;
                quizState := taking; score := 0; feedback := None;
                error := None |};
     store := library; awaitingQuestions := []; awaitingFeedback := [] |}.

(** The page on [notes], mounted with an API key, waiting for its
    questions. *)
Definition mounted : World :=
  mountEffect true (initialWorld (Some "m1") library).

(** What the gateway may return: a question with an id and one without. *)
Definition withId (i : string) : GeneratedQuestion :=
  {| gen_id := Some i; gen_questionText := "What is the capital of France?";
     gen_type := short_answer; gen_options := None;
     gen_correctAnswer := Some "Paris" |}.

Definition withoutId : GeneratedQuestion :=
  {| gen_id := None; gen_questionText := "Which river crosses Paris?";
     gen_type := mcq; gen_options := Some ["Seine"; "Loire"; "Rhone"];
     gen_correctAnswer := Some "Seine" |}.

(** Two sources of suffixes: one that never repeats, one that always
    repeats. *)
Definition counting (k : nat) : string := pretty k.
Definition stuck (k : nat) : string := "4fzzzxjyl".

(** Two materials, one quiz each: 3 out of 5 and 4 out of 4. *)
Definition quizOf (contentId : string) (quizScore total : nat) : Quiz :=
  {| quiz_id := "quiz_1700000000000"; quiz_contentId := contentId;
     quiz_questions := replicate total capital; quiz_score := Some quizScore;
     quiz_timestamp := 1700000000000; durationSeconds := 120 |}.

Definition dashboard : Store :=
  {| studyMaterials :=
       [notes; {| material_id := "m2"; title := "Rivers";
                  extractedText := Some "The Seine crosses Paris." |}];
     quizzes := {["m1" := [quizOf "m1" 3 5]; "m2" := [quizOf "m2" 4 4]]} |}.


End Sample.

(** ** Vocabulary of the specification *)

Module Spec.
Import ContentStore QuizPage.

(** The answer recorded last for question [q] in a sequence of events. *)
Fixpoint lastAnswer (q : string) (events : list (Z * Event)) : option string :=
  match events with
  | [] => None
  | (_, e) :: rest =>
      match lastAnswer q rest with
      | Some a => Some a
      | None =>
          match e with
          | AnswerChanged q' a => if String.eqb q' q then Some a else None
          | _ => None
          end
      end
  end.

(** One firing of the timeout at each of the given clock readings. *)
Definition ticks (times : list Z) : list (Z * Event) :=
  List.map (fun now => (now, TimeoutFired)) times.


(** The ids the gateway supplied, in order. *)
Fixpoint suppliedIds (generated : list GeneratedQuestion) : list string :=
  match generated with
  | [] => []
  | g :: rest =>
      match gen_id g with
      | Some i => if JS.truthy (gen_id g) then i :: suppliedIds rest
                  else suppliedIds rest
      | None => suppliedIds rest
      end
  end.

(** The number of questions that arrive without an id. *)
Fixpoint missingIds (generated : list GeneratedQuestion) : nat :=
  match generated with
  | [] => 0
  | g :: rest =>
      if JS.truthy (gen_id g) then missingIds rest else S (missingIds rest)
  end.

(** The quizzes the dashboard sees: the histories of the stored materials,
    in order. *)
Definition storedQuizzes (s : Store) : list Quiz :=
  flat_map (fun material =>
              default [] (getQuizzesForContent (material_id material) s))
           (studyMaterials s).

(** A quiz with a numeric score and at least one question. *)
Definition countedQuiz (quiz : Quiz) : bool :=
  match quiz_score quiz with
  | Some _ => (0 <? length (quiz_questions quiz))%nat
  | None => false
  end.

Fixpoint sumScores (quizzes : list Quiz) : nat :=
  match quizzes with
  | [] => 0
  | quiz :: rest => default 0 (quiz_score quiz) + sumScores rest
  end.

Fixpoint sumQuestions (quizzes : list Quiz) : nat :=
  match quizzes with
  | [] => 0
  | quiz :: rest => length (quiz_questions quiz) + sumQuestions rest
  end.








(** The store without the quizzes that have no question. *)
Definition withoutEmptyQuizzes (s : Store) : Store :=
  {| studyMaterials := studyMaterials s;
     quizzes := List.filter (fun quiz => (0 <? length (quiz_questions quiz))%nat)
                  <$> quizzes s |}.

End Spec.

(** ** The session after it has started *)

Module Session.
Import ContentStore QuizPage.

Section Invariant.
Context {constants : Constants}.

(** The record [handleSubmitQuiz] builds at clock reading [now] from the
    page as it is after the submission. *)
Definition recordOf (c : string) (now : Z) (s : State) : Quiz :=
  {| quiz_id := "quiz_" +:+ pretty now; quiz_contentId := c;
     quiz_questions := questions s; quiz_score := Some (score s);
     quiz_timestamp := now;
     durationSeconds := DEFAULT_QUIZ_DURATION_SECONDS - timeLeft s |}.

(** What holds of a session on content id [c] that was in [taking] at [w0]
    with no gateway call in flight: while it is in [taking] the store is
    untouched; from the submission on the store holds one more record, the
    one built from the page, and at most one feedback call is in flight. *)
Definition invariant (c : string) (w0 w : World) : Prop :=
  awaitingQuestions w = [] /\
  contentId (page w) = Some c /\
  (timeLeft (page w) <= timeLeft (page w0))%Z /\
  ((0 <= timeLeft (page w0))%Z -> (0 <= timeLeft (page w))%Z) /\
  length (questions (page w)) = length (questions (page w0)) /\
  match quizState (page w) with
  | loading => False
  | taking =>
      store w = store w0 /\ awaitingFeedback w = [] /\
      questions (page w) = questions (page w0)
  | submitting =>
      length (awaitingFeedback w) = 1%nat /\
      (score (page w) <= length (questions (page w)))%nat /\
      exists now, store w = addQuizResult c (recordOf c now (page w)) (store w0)
  | results =>
      awaitingFeedback w = [] /\
      (score (page w) <= length (questions (page w)))%nat /\
      exists now, store w = addQuizResult c (recordOf c now (page w)) (store w0)
  end.

(** What an event sequence cannot change once the session is over. *)
Definition sameOutcome (w w' : World) : Prop :=
  quizState (page w') = quizState (page w) /\
  questions (page w') = questions (page w) /\
  score (page w') = score (page w) /\
  timeLeft (page w') = timeLeft (page w) /\
  feedback (page w') = feedback (page w) /\
  error (page w') = error (page w) /\
  store w' = store w /\
  awaitingQuestions w' = awaitingQuestions w /\
  awaitingFeedback w' = awaitingFeedback w.

End Invariant.
End Session.

(** ** [pages/QuizPage.tsx]: what the taking view shows *)

Module QuizView.
Import QuizPage.

(** [const currentQ = questions[currentQuestionIndex]] *)
Definition currentQ (s : State) : option QuizQuestion :=
  if (currentQuestionIndex s <? 0)%Z then None
  else questions s !! Z.to_nat (currentQuestionIndex s).

(** [s.slice(-n)]: the last [n] code units, the whole string when it is
    shorter. *)
Definition sliceLast (n : nat) (s : string) : string :=
  String.substring (String.length s - n) n s.

(** The countdown in the header:
    [{Math.floor(timeLeft / 60)}:{('0' + (timeLeft % 60)).slice(-2)}]. *)
Definition timerText (timeLeft : Z) : string :=
  pretty (timeLeft / 60)%Z +:+ ":" +:+
  sliceLast 2 ("0" +:+ pretty (Z.rem timeLeft 60)).

End QuizView.

(** ** Strings of white space *)

Module Blank.

(** A string made of white space only, the empty string included. *)
Fixpoint blank (s : string) : bool :=
  match s with
  | EmptyString => true
  | String c s' => JS.isWhiteSpace c && blank s'
  end.

End Blank.

(** ** [pages/DashboardPage.tsx]: the counter and the recent activity *)

Module Dashboard.
Import ContentStore.

(** [getTotalQuizzesTaken] *)
Definition getTotalQuizzesTaken (s : Store) : nat :=
  fold_left
    (fun acc material =>
       acc + match getQuizzesForContent (material_id material) s with
             | Some quizzes => length quizzes
             | None => 0
             end)%nat
    (studyMaterials s) 0%nat.

Section RecentActivity.

(** [new Date(material.uploadDate).getTime()], for upload dates that are
    valid dates. *)
Variable getTime : StudyMaterial -> Z.

(** [Array.prototype.sort] with a comparator: the sort is stable, and [a]
    stays before [b] unless the comparator is positive.  Insertion from the
    right end gives that order. *)
Fixpoint insertBy {A} (comparator : A -> A -> Z) (x : A) (l : list A) : list A :=
  match l with
  | [] => [x]
  | y :: rest =>
      if (comparator x y <=? 0)%Z then x :: y :: rest
      else y :: insertBy comparator x rest
  end.

Definition sortBy {A} (comparator : A -> A -> Z) (l : list A) : list A :=
  foldr (insertBy comparator) [] l.

(** [[...studyMaterials].sort((a,b) => time(b) - time(a)).slice(0, 3)] *)
Definition recentActivities (materials : list StudyMaterial) : list StudyMaterial :=
  take 3 (sortBy (fun a b => getTime b - getTime a)%Z materials).

End RecentActivity.
End Dashboard.

(** ** [HomePage]: the upload form *)

Module HomePage.

Inductive ContentType := text | youtube | file.
Inductive Difficulty := Easy | Medium | Hard.

Global Instance ContentType_eq_dec : EqDecision ContentType.
Proof. solve_decision. Defined.

(** The name and the MIME type of a selected [File]. *)
Record File := { name : string; mimeType : string }.

(** What [geminiService.suggestMetadata] resolves to. *)
Record Metadata := {
  meta_title : string;
  meta_subject : string;
  meta_topic : string;
  meta_difficulty : Difficulty;
}.

Record UploadedContent := {
  content_id : string;
  content_type : ContentType;
  originalContent : string;
  fileName : option string;
  fileMimeType : option string;
  content_extractedText : string;
  content_title : string;
  content_subject : string;
  content_topic : string;
  content_difficulty : Difficulty;
  (** the clock reading whose ISO 8601 rendering is stored *)
  uploadDate : Z;
}.

(** The state hooks of the form. *)
Record State := {
  contentType : ContentType;
  textContent : string;
  youtubeUrl : string;
  selectedFile : option File;
  title : string;
  subject : string;
  topic : string;
  difficulty : Difficulty;
  isLoading : bool;
  error : option string;
  isSuggestingMeta : bool;
}.

(** [s.trim()] used as a condition. *)
Definition trimmedTruthy (s : string) : bool := JS.truthy (Some (JS.trim s)).

Definition isSome {A} (o : option A) : bool :=
  match o with Some _ => true | None => false end.

(** The condition under which [handleSubmit] refuses the form. *)
Definition contentNotProvided (s : State) : bool :=
  (bool_decide (contentType s = text) && negb (trimmedTruthy (textContent s)))
  || (bool_decide (contentType s = youtube) && negb (trimmedTruthy (youtubeUrl s)))
  || (bool_decide (contentType s = file) && negb (isSome (selectedFile s))).

(** [isSubmitDisabled] *)
Definition isSubmitDisabled (s : State) : bool :=
  if isLoading s || isSuggestingMeta s then true
  else if bool_decide (contentType s = text) && negb (trimmedTruthy (textContent s))
  then true
  else if bool_decide (contentType s = youtube) && negb (trimmedTruthy (youtubeUrl s))
  then true
  else if bool_decide (contentType s = file) && negb (isSome (selectedFile s))
  then true
  else false.

(** The [disabled] attribute of the button "Suggest with AI". *)
Definition isSuggestDisabled (s : State) : bool :=
  isLoading s
  || (bool_decide (contentType s = text) && negb (trimmedTruthy (textContent s)))
  || (bool_decide (contentType s = youtube) && negb (trimmedTruthy (youtubeUrl s)))
  || (bool_decide (contentType s = file) && negb (isSome (selectedFile s))).

(** [contentToAnalyze] of [handleSuggestMetadata]; [None] when the handler
    reports that content is missing. *)
Definition contentToAnalyze (s : State) : option string :=
  if bool_decide (contentType s = text) && trimmedTruthy (textContent s)
  then Some (textContent s)
  else if bool_decide (contentType s = youtube) && trimmedTruthy (youtubeUrl s)
  then Some (youtubeUrl s)
  else match selectedFile s with
       | Some f => if bool_decide (contentType s = file) then Some (name f) else None
       | None => None
       end.

Definition withStatus (loading : bool) (e : option string) (s : State) : State :=
  {| contentType := contentType s; textContent := textContent s;
     youtubeUrl := youtubeUrl s; selectedFile := selectedFile s;
     title := title s; subject := subject s; topic := topic s;
     difficulty := difficulty s; isLoading := loading; error := e;
     isSuggestingMeta := isSuggestingMeta s |}.

(** What [handleSubmit] leaves behind: the state of the form, the content
    passed to [addContent] and the route passed to [navigate]. *)
Record Outcome := {
  state : State;
  added : option UploadedContent;
  navigatedTo : option string;
}.

(** The text, the original content, the file name and the MIME type that
    the [try] block of [handleSubmit] works out; [extraction] is what
    [fetchYouTubeTranscript] or [processFileUploadSimulation] settles to. *)
Definition extract (extraction : Settled string) (s : State)
    : Settled (string * string * option string * option string) :=
  match contentType s with
  | youtube =>
      match extraction with
      | Fulfilled t => Fulfilled (t, youtubeUrl s, None, None)
      | Rejected => Rejected
      end
  | file =>
      match selectedFile s with
      | Some f =>
          match extraction with
          | Fulfilled t => Fulfilled (t, name f, Some (name f), Some (mimeType f))
          | Rejected => Rejected
          end
      | None => Fulfilled (textContent s, textContent s, None, None)
      end
  | text => Fulfilled (textContent s, textContent s, None, None)
  end.

(** [title || (extractedText ? (await suggestMetadata(...)).title : 'Untitled')] *)
Definition finalTitle (suggestion : Settled Metadata) (s : State)
    (extractedText : string) : Settled string :=
  if JS.truthy (Some (title s)) then Fulfilled (title s)
  else if JS.truthy (Some extractedText) then
    match suggestion with
    | Fulfilled m => Fulfilled (meta_title m)
    | Rejected => Rejected
    end
  else Fulfilled "Untitled".

(** [handleSubmit], with the clock readings of [Date.now()] and
    [new Date()] and what the gateway calls settle to. *)
Definition handleSubmit (now uploaded : Z) (extraction : Settled string)
    (suggestion : Settled Metadata) (s : State) : Outcome :=
  if contentNotProvided s then
    {| state := withStatus false (Some "Please provide the required content.") s;
       added := None; navigatedTo := None |}
  else
    let newContentId := "content_" +:+ pretty now in
    let failed :=
      {| state := withStatus false (Some
           "Failed to process content. Please ensure your API key is configured and try again.") s;
         added := None; navigatedTo := None |} in
    match extract extraction s with
    | Rejected => failed
    | Fulfilled (extractedText, originalContentValue, fileNameValue,
                 fileMimeTypeValue) =>
        match finalTitle suggestion s extractedText with
        | Rejected => failed
        | Fulfilled t =>
            {| state := withStatus false None s;
               added := Some
                 {| content_id := newContentId; content_type := contentType s;
                    originalContent := originalContentValue;
                    fileName := fileNameValue;
                    fileMimeType := fileMimeTypeValue;
                    content_extractedText := extractedText;
                    content_title := t; content_subject := subject s;
                    content_topic := topic s;
                    content_difficulty := difficulty s;
                    uploadDate := uploaded |};
               navigatedTo := Some ("/study/" +:+ newContentId) |}
        end
    end.

End HomePage.

(** ** [StudyPage]: the file name of the download and the video player *)

Module StudyPage.

(** Every character of the string passes the test. *)
Fixpoint allChars (p : ascii -> bool) (s : string) : bool :=
  match s with
  | EmptyString => true
  | String c s' => p c && allChars p s'
  end.

(** A code unit that [/[^a-z0-9]/gi] leaves alone. *)
Definition isAlphanumeric (c : ascii) : bool :=
  let n := N_of_ascii c in
  ((48 <=? n) && (n <=? 57) || (65 <=? n) && (n <=? 90)
   || (97 <=? n) && (n <=? 122))%N.

(** [s.replace(/[^a-z0-9]/gi, '_')] *)
Fixpoint replaceNonAlphanumeric (s : string) : string :=
  match s with
  | EmptyString => EmptyString
  | String c s' =>
      String (if isAlphanumeric c then c else "_"%char) (replaceNonAlphanumeric s')
  end.

(** [safeFilename] of [handleDownloadPptx] *)
Definition safeFilename (title : string) : string :=
  JS.toLowerCase
    (replaceNonAlphanumeric
       (if JS.truthy (Some title) then title else "presentation")).

(** A lower-case letter, a digit or the underscore. *)
Definition isSafeChar (c : ascii) : bool :=
  let n := N_of_ascii c in
  ((48 <=? n) && (n <=? 57) || (97 <=? n) && (n <=? 122) || (n =? 95))%N.

(** *** [VideoPlayer] *)

Record VideoScene := {
  (** [None]: the scene has no script *)
  script : option string;
  imageUrl : option string;
}.

Record Player := {
  currentSceneIndex : Z;
  isPlaying : bool;
}.

Section VideoPlayer.
Variable scenes : list VideoScene.

(** [scenes[currentSceneIndex]] *)
Definition sceneAt (index : Z) : option VideoScene :=
  if (index <? 0)%Z then None else scenes !! Z.to_nat index.

(** An utterance is being spoken: the player is playing a scene that has
    a script. *)
Definition speaking (p : Player) : bool :=
  isPlaying p &&
  match sceneAt (currentSceneIndex p) with
  | Some scene => JS.truthy (script scene)
  | None => false
  end.

(** The effect that speaks the scene: it stops the player when there is
    nothing to speak. *)
Definition speakEffect (p : Player) : Player :=
  if negb (isPlaying p) then p
  else if speaking p then p
  else {| currentSceneIndex := currentSceneIndex p; isPlaying := false |}.

(** [utterance.onend]; the callback is attached only while an utterance
    is spoken. *)
Definition onend (p : Player) : Player :=
  if speaking p then
    if isPlaying p && (currentSceneIndex p <? Z.of_nat (length scenes) - 1)%Z
    then {| currentSceneIndex := currentSceneIndex p + 1; isPlaying := isPlaying p |}
    else {| currentSceneIndex := currentSceneIndex p; isPlaying := false |}
  else p.

(** [handlePlayPause] *)
Definition handlePlayPause (p : Player) : Player :=
  {| currentSceneIndex :=
       if negb (isPlaying p)
          && (currentSceneIndex p =? Z.of_nat (length scenes) - 1)%Z
       then 0%Z else currentSceneIndex p;
     isPlaying := negb (isPlaying p) |}.

Inductive Direction := next | prev.

(** [handleSkip] *)
Definition handleSkip (direction : Direction) (p : Player) : Player :=
  {| currentSceneIndex :=
       match direction with
       | next => Z.min (Z.of_nat (length scenes) - 1) (currentSceneIndex p + 1)
       | prev => Z.max 0 (currentSceneIndex p - 1)
       end;
     isPlaying := isPlaying p |}.

Inductive PlayerEvent :=
  | PlayPauseClicked
  | SkipClicked (direction : Direction)
  | UtteranceEnded.

(** One event, followed by the effect. *)
Definition playerStep (e : PlayerEvent) (p : Player) : Player :=
  speakEffect
    match e with
    | PlayPauseClicked => handlePlayPause p
    | SkipClicked direction => handleSkip direction p
    | UtteranceEnded => onend p
    end.

Definition playerRun (events : list PlayerEvent) (p : Player) : Player :=
  fold_left (fun p e => playerStep e p) events p.

End VideoPlayer.
End StudyPage.

(** ** [App]: the links of the header *)

Module App.

(** A code unit matched by [\w]. *)
Definition isWordChar (c : ascii) : bool :=
  StudyPage.isAlphanumeric c || (N_of_ascii c =? 95)%N.

(** [s] without the prefix [p], when it starts with it. *)
Fixpoint stripPrefix (p s : string) : option string :=
  match p, s with
  | EmptyString, _ => Some s
  | String a p', String b s' => if Ascii.eqb a b then stripPrefix p' s' else None
  | String _ _, EmptyString => None
  end.

(** [/^\/(study|quiz)\/\w+$/.test(pathname)] *)
Definition contentPathRegex_test (pathname : string) : bool :=
  match stripPrefix "/study/" pathname, stripPrefix "/quiz/" pathname with
  | Some rest, _ | None, Some rest =>
      negb (String.eqb rest "") && StudyPage.allChars isWordChar rest
  | None, None => false
  end.

(** [s.split('/')] *)
Fixpoint split (s : string) : list string :=
  match s with
  | EmptyString => [EmptyString]
  | String c s' =>
      if Ascii.eqb c "/" then EmptyString :: split s'
      else match split s' with
           | [] => [String c EmptyString]
           | word :: rest => String c word :: rest
           end
  end.

(** [contentId] of [Header] *)
Definition headerContentId (pathname : string) : option string :=
  if contentPathRegex_test pathname then split pathname !! 2%nat else None.

End App.

(** ** [pages/QuizPage.tsx]: the callbacks between two renders *)

Module Closures.
Import ContentStore QuizPage.

(** A mounted page between two renders.  [rendered] is the world the last
    committed render read: the state hooks, and the store from which it took
    [material].  The callbacks that render created read their values from
    it: [handleSubmitQuiz] lists every value it reads in the dependencies of
    its [useCallback], so the callback of a render reads what that render
    read.  [current] is the world after the updates made since, from which
    React computes the next render.  [timeoutPending] says that the timeout
    whose id is in [timerRef] has neither fired nor been cleared. *)
Record Mounted := {
  rendered : World;
  current : World;
  timeoutPending : bool;
}.

(** The page when the render that read [w] has just been committed, before
    its effects have run. *)
Definition upToDate (w : World) : Mounted :=
  {| rendered := w; current := w; timeoutPending := false |}.

(** React commits the next render: it reads the current world. *)
Definition commit (m : Mounted) : Mounted :=
  {| rendered := current m; current := current m;
     timeoutPending := timeoutPending m |}.

(** [clearTimeout(timerRef.current)] *)
Definition clearTimeout (m : Mounted) : Mounted :=
  {| rendered := rendered m; current := current m; timeoutPending := false |}.

(** The taking view of a render shows the button "Submit Quiz": the page
    is past [loading], not in [results], not replaced by the alert "No
    questions available", and the displayed question is the last one. *)
Definition showsSubmit (s : State) : bool :=
  negb (bool_decide (quizState s = loading))
  && negb (bool_decide (quizState s = results))
  && negb (negb (bool_decide (is_Some (QuizView.currentQ s)))
           && bool_decide (quizState s = taking))
  && negb (currentQuestionIndex s <? Z.of_nat (length (questions s)) - 1)%Z.

Section Component.
Context {constants : Constants}.

(** [handleSubmitQuiz] of the last render, up to its [await].  The guard,
    the grading and the record read the values the render captured; the
    setters update the current state, and [addQuizResult] appends to the
    store as it is when it is called. *)
Definition handleSubmitQuiz (now : Z) (m : Mounted) : Mounted :=
  let s := page (rendered m) in
  if bool_decide (quizState s = submitting) || bool_decide (quizState s = results)
  then m
  else
    let '(answeredQuestions, calculatedScore) :=
      Grading.gradeAll (userAnswers s) (questions s) 0 in
    {| rendered := rendered m;
       current :=
         {| page := setScore calculatedScore
                      (setQuestions answeredQuestions
                         (setQuizState submitting (page (current m))));
            store := persistQuizResult now s answeredQuestions calculatedScore
                       (store (current m));
            awaitingQuestions := awaitingQuestions (current m);
            awaitingFeedback := awaitingFeedback (current m) ++
              [{| fr_score := calculatedScore;
                  fr_totalQuestions := length (questions s);
                  fr_sourceText := materialText (rendered m) |}] |};
       timeoutPending := false |}.

(** The callback of the timeout, when the timeout fires. *)
Definition timeoutCallback (m : Mounted) : Mounted :=
  if timeoutPending m
  then {| rendered := rendered m;
          current := render (setTimeLeft (fun prevTime => prevTime - 1)%Z)
                       (current m);
          timeoutPending := false |}
  else m.

(** The timer effect of the last render. *)
Definition timerEffect (now : Z) (m : Mounted) : Mounted :=
  let s := page (rendered m) in
  if bool_decide (quizState s = taking) && (0 <? timeLeft s)%Z
  then {| rendered := rendered m; current := current m; timeoutPending := true |}
  else if (timeLeft s =? 0)%Z && bool_decide (quizState s = taking)
  then handleSubmitQuiz now m
  else m.

(** A render in which one of [timeLeft], [quizState] and [handleSubmitQuiz]
    has changed: React commits it, runs the cleanup of the previous run of
    the timer effect and then the effect. *)
Definition rerender (now : Z) (m : Mounted) : Mounted :=
  timerEffect now (clearTimeout (commit m)).

(** A click on the button "Submit Quiz" of the last render:
    [onClick={handleSubmitQuiz}]. *)
Definition clickSubmit (now : Z) (m : Mounted) : Mounted :=
  if showsSubmit (page (rendered m)) then handleSubmitQuiz now m else m.

End Component.
End Closures.

(** ** More sample data *)

Module Examples.
Import ContentStore QuizPage.

(** An answer, a look at the next question, the last second, a late click
    and the failure of the feedback call. *)
Definition events : list (Z * Event) :=
  [(1700000000100, AnswerChanged "q2" "seine");
   (1700000000200, NextClicked);
   (1700000001000, TimeoutFired);
   (1700000001100, SubmitClicked);
   (1700000002000, FeedbackSettled Rejected)]%Z.

(** The page on [Sample.notes], mounted without an API key. *)
Definition withoutKey : World :=
  mountEffect (constants := Sample.constants) false
    (initialWorld (constants := Sample.constants) (Some "m1") Sample.library).

(** [Sample.session] with its last question displayed. *)
Definition lastQuestion : World :=
  render (setCurrentQuestionIndex (fun _ => 1%Z)) Sample.session.

(** Three scenes, each with a script. *)
Definition scenes : list StudyPage.VideoScene :=
  [{| StudyPage.script := Some "Paris is the capital of France.";
      StudyPage.imageUrl := None |};
   {| StudyPage.script := Some "The Seine crosses Paris.";
      StudyPage.imageUrl := Some "data:image/png;base64,iVBORw0KGgo=" |};
   {| StudyPage.script := Some "Its source is in Burgundy.";
      StudyPage.imageUrl := None |}].

End Examples.

(** * Properties *)

Import ContentStore QuizPage Grading DashboardPage Spec.

(** ** Grading *)

Section GradingFacts.

Lemma gradeQuestion_score ua q n :
  (gradeQuestion ua q n).2 =
  (n + if judgedCorrect (grade ua q) then 1 else 0)%nat.
Proof.
  unfold grade, gradeQuestion, judgedCorrect; simpl.
  destruct (correctAnswer q) as [c|]; simpl; [|lia].
  destruct (ua !! question_id q) as [a|]; simpl; [|lia].
  destruct (String.eqb _ _); simpl; lia.
Qed.

Lemma gradeQuestion_fst ua q n : (gradeQuestion ua q n).1 = grade ua q.
Proof. reflexivity. Qed.

(** The map with its counter is a plain map and a count. *)
Lemma gradeAll_map ua qs n :
  gradeAll ua qs n =
  (List.map (grade ua) qs,
   (n + length (List.filter judgedCorrect (List.map (grade ua) qs)))%nat).
Proof.
  revert n; induction qs as [|q qs IH]; intros n; cbn [gradeAll List.map].
  - cbn; f_equal; lia.
  - destruct (gradeQuestion ua q n) as [q' n1] eqn:E.
    pose proof (gradeQuestion_score ua q n) as Hs.
    pose proof (gradeQuestion_fst ua q n) as Hf.
    rewrite E in Hs, Hf; cbn [fst snd] in Hs, Hf; subst q' n1.
    rewrite IH; cbn [List.filter].
    destruct (judgedCorrect (grade ua q)); cbn [length]; f_equal; lia.
Qed.

Lemma grade_isCorrect ua q :
  isCorrect (grade ua q) = Some true <->
  exists a c, ua !! question_id q = Some a /\ correctAnswer q = Some c /\
              JS.toLowerCase (JS.trim a) = JS.toLowerCase (JS.trim c).
Proof.
  unfold grade, gradeQuestion; simpl.
  destruct (correctAnswer q) as [c|]; simpl.
  - destruct (ua !! question_id q) as [a|]; simpl.
    + destruct (String.eqb_spec (JS.toLowerCase (JS.trim a))
                                (JS.toLowerCase (JS.trim c))) as [E|NE].
      * split; [intros _; eauto | done].
      * split; [done | intros (a' & c' & [= <-] & [= <-] & E); done].
    + split; [done | intros (a' & c' & [=] & _)].
  - split; [done | intros (a' & c' & _ & [=] & _)].
Qed.

Lemma grade_fields ua q :
  question_id (grade ua q) = question_id q /\
  questionText (grade ua q) = questionText q /\
  type (grade ua q) = type q /\
  options (grade ua q) = options q /\
  correctAnswer (grade ua q) = correctAnswer q /\
  userAnswer (grade ua q) = ua !! question_id q /\
  is_Some (isCorrect (grade ua q)).
Proof. unfold grade, gradeQuestion; simpl; eauto 10. Qed.

End GradingFacts.

(** ** Submission *)

Section SubmitFacts.
Context {constants : Constants}.

Lemma handleSubmitQuiz_begin_guarded now w :
  quizState (page w) = submitting \/ quizState (page w) = results ->
  handleSubmitQuiz_begin now w = w.
Proof.
  intros [E|E]; unfold handleSubmitQuiz_begin; rewrite E; reflexivity.
Qed.

Lemma handleSubmitQuiz_begin_open now w :
  quizState (page w) <> submitting -> quizState (page w) <> results ->
  handleSubmitQuiz_begin now w =
  let s := page w in
  let answeredQuestions := List.map (grade (userAnswers s)) (questions s) in
  let calculatedScore := length (List.filter judgedCorrect answeredQuestions) in
  {| page := setScore calculatedScore
               (setQuestions answeredQuestions (setQuizState submitting s));
     store := persistQuizResult now s answeredQuestions calculatedScore (store w);
     awaitingQuestions := awaitingQuestions w;
     awaitingFeedback := awaitingFeedback w ++
       [{| fr_score := calculatedScore;
           fr_totalQuestions := length (questions s);
           fr_sourceText := materialText w |}] |}.
Proof.
  intros N1 N2. unfold handleSubmitQuiz_begin.
  rewrite !bool_decide_eq_false_2 by done. cbn [orb].
  rewrite gradeAll_map. reflexivity.
Qed.

Lemma handleSubmitQuiz_begin_taking now w :
  quizState (page w) = taking ->
  handleSubmitQuiz_begin now w =
  let s := page w in
  let answeredQuestions := List.map (grade (userAnswers s)) (questions s) in
  let calculatedScore := length (List.filter judgedCorrect answeredQuestions) in
  {| page := setScore calculatedScore
               (setQuestions answeredQuestions (setQuizState submitting s));
     store := persistQuizResult now s answeredQuestions calculatedScore (store w);
     awaitingQuestions := awaitingQuestions w;
     awaitingFeedback := awaitingFeedback w ++
       [{| fr_score := calculatedScore;
           fr_totalQuestions := length (questions s);
           fr_sourceText := materialText w |}] |}.
Proof. intros E. apply handleSubmitQuiz_begin_open; rewrite E; done. Qed.

Lemma Forall2_map_diag {A B} (P : A -> B -> Prop) (f : A -> B) (l : list A) :
  (forall x, P x (f x)) -> Forall2 P l (List.map f l).
Proof. intros HP; induction l; simpl; constructor; auto. Qed.

(** C2: a question of a submitted quiz is marked correct exactly when the
    user's answer and the correct answer are equal once trimmed and
    lower-cased, and the session score is the number of questions so marked;
    with the correct answer "Paris", the answer "  paris " is correct and the
    answer "paris," is not. *)
Theorem grading_rule (now : Z) (w : World) :
  quizState (page w) = taking ->
  let submitted := page (handleSubmitQuiz_begin now w) in
  Forall2 (fun q g =>
      question_id g = question_id q /\
      is_Some (isCorrect g) /\
      (isCorrect g = Some true <->
       exists a c, userAnswers (page w) !! question_id q = Some a /\
                   correctAnswer q = Some c /\
                   JS.toLowerCase (JS.trim a) = JS.toLowerCase (JS.trim c)))
    (questions (page w)) (questions submitted)
  /\ score submitted = length (List.filter judgedCorrect (questions submitted))
  /\ isCorrect (gradeQuestion {["q1" := "  paris "]} Sample.capital 0).1 = Some true
  /\ isCorrect (gradeQuestion {["q1" := "paris,"]} Sample.capital 0).1 = Some false.
Proof.
  intros E submitted. subst submitted.
  rewrite (handleSubmitQuiz_begin_taking now w E). cbn.
  split; [|split; [reflexivity | split; reflexivity]].
  apply Forall2_map_diag. intros q.
  pose proof (grade_fields (userAnswers (page w)) q) as (? & _ & _ & _ & _ & _ & ?).
  split; [done | split; [done | apply grade_isCorrect]].
Qed.

Lemma persistQuizResult_truthy now s answered n st c :
  contentId s = Some c -> JS.truthy (Some c) = true ->
  persistQuizResult now s answered n st =
  addQuizResult c
    {| quiz_id := "quiz_" +:+ pretty now; quiz_contentId := c;
       quiz_questions := answered; quiz_score := Some n;
       quiz_timestamp := now;
       durationSeconds := DEFAULT_QUIZ_DURATION_SECONDS - timeLeft s |} st.
Proof. intros E T. unfold persistQuizResult. rewrite E, T. reflexivity. Qed.

Lemma getQuizzes_addQuizResult c q st :
  getQuizzesForContent c (addQuizResult c q st) =
  Some (default [] (getQuizzesForContent c st) ++ [q]).
Proof. unfold getQuizzesForContent, addQuizResult; cbn. apply lookup_insert_eq. Qed.

Lemma getQuizzes_addQuizResult_ne c c' q st :
  c <> c' ->
  getQuizzesForContent c' (addQuizResult c q st) = getQuizzesForContent c' st.
Proof.
  intros N. unfold getQuizzesForContent, addQuizResult; cbn.
  by apply lookup_insert_ne.
Qed.

Lemma timerEffect_idle now w :
  quizState (page w) <> taking -> timerEffect now w = w.
Proof.
  intros N. unfold timerEffect.
  rewrite !bool_decide_eq_false_2 by done.
  cbn [andb]. rewrite andb_false_r. reflexivity.
Qed.

Lemma step_SubmitClicked now w :
  step now SubmitClicked w = handleSubmitQuiz_begin now w.
Proof.
  cbn [step]. apply timerEffect_idle.
  destruct (decide (quizState (page w) = submitting)) as [E|N1].
  { rewrite handleSubmitQuiz_begin_guarded by auto. by rewrite E. }
  destruct (decide (quizState (page w) = results)) as [E|N2].
  { rewrite handleSubmitQuiz_begin_guarded by auto. by rewrite E. }
  rewrite handleSubmitQuiz_begin_open by done. done.
Qed.

Lemma step_FeedbackSettled now r w :
  awaitingFeedback w <> [] ->
  step now (FeedbackSettled r) w =
  {| page := setQuizState results
               (setFeedback
                  (Some match r with
                        | Fulfilled f => f
                        | Rejected => {| text := "Could not generate AI feedback." |}
                        end) (page w));
     store := store w;
     awaitingQuestions := awaitingQuestions w;
     awaitingFeedback := tail (awaitingFeedback w) |}.
Proof.
  intros N. cbn [step]. unfold handleSubmitQuiz_resume.
  destruct (awaitingFeedback w) as [|x rest]; [done|].
  apply timerEffect_idle. done.
Qed.

Lemma timerArmed_true w :
  quizState (page w) = taking -> (0 < timeLeft (page w))%Z -> timerArmed w = true.
Proof.
  intros E T. unfold timerArmed.
  rewrite bool_decide_eq_true_2 by done. by apply Z.ltb_lt.
Qed.

Lemma timerEffect_armed now w :
  quizState (page w) = taking -> (0 < timeLeft (page w))%Z -> timerEffect now w = w.
Proof.
  intros E T. unfold timerEffect. fold (timerArmed w).
  by rewrite timerArmed_true.
Qed.

Lemma timerEffect_expired now w :
  quizState (page w) = taking -> timeLeft (page w) = 0%Z ->
  timerEffect now w = handleSubmitQuiz_begin now w.
Proof.
  intros E T. unfold timerEffect.
  rewrite T, bool_decide_eq_true_2 by done. reflexivity.
Qed.

Lemma timeoutCallback_armed w :
  quizState (page w) = taking -> (0 < timeLeft (page w))%Z ->
  timeoutCallback w = render (setTimeLeft (fun _ => timeLeft (page w) - 1)%Z) w.
Proof.
  intros E T. unfold timeoutCallback. by rewrite timerArmed_true.
Qed.

Lemma step_TimeoutFired_last now w :
  quizState (page w) = taking -> timeLeft (page w) = 1%Z ->
  step now TimeoutFired w =
  handleSubmitQuiz_begin now (render (setTimeLeft (fun _ => 0%Z)) w).
Proof.
  intros E T. cbn [step]. rewrite timeoutCallback_armed by (done || lia).
  rewrite T. by apply timerEffect_expired.
Qed.

Lemma step_TimeoutFired_idle now w :
  quizState (page w) <> taking -> step now TimeoutFired w = w.
Proof.
  intros N. cbn [step]. unfold timeoutCallback, timerArmed.
  rewrite bool_decide_eq_false_2 by done. cbn [andb].
  by apply timerEffect_idle.
Qed.

(** C6: the record a submission persists holds the computed score, the
    graded questions, each with its [userAnswer] and [isCorrect], and the
    configured duration minus the time left; it is appended by
    [addQuizResult] to the history of the session's content id. *)
Theorem quiz_record_persisted (now : Z) (w : World) (c : string) :
  quizState (page w) = taking ->
  contentId (page w) = Some c ->
  JS.truthy (Some c) = true ->
  let w' := handleSubmitQuiz_begin now w in
  let record :=
    {| quiz_id := "quiz_" +:+ pretty now; quiz_contentId := c;
       quiz_questions := questions (page w');
       quiz_score := Some (score (page w'));
       quiz_timestamp := now;
       durationSeconds := DEFAULT_QUIZ_DURATION_SECONDS - timeLeft (page w) |} in
  store w' = addQuizResult c record (store w)
  /\ getQuizzesForContent c (store w') =
     Some (default [] (getQuizzesForContent c (store w)) ++ [record])
  /\ score (page w') = length (List.filter judgedCorrect (questions (page w')))
  /\ Forall2 (fun q g =>
         question_id g = question_id q /\
         questionText g = questionText q /\
         type g = type q /\
         options g = options q /\
         correctAnswer g = correctAnswer q /\
         userAnswer g = userAnswers (page w) !! question_id q /\
         is_Some (isCorrect g))
       (questions (page w)) (questions (page w')).
Proof.
  intros E Ec Tc w' record. subst record w'.
  rewrite (handleSubmitQuiz_begin_taking now w E). cbn.
  rewrite (persistQuizResult_truthy _ _ _ _ _ c Ec Tc).
  split; [reflexivity|]. split; [apply getQuizzes_addQuizResult|].
  split; [reflexivity|].
  apply Forall2_map_diag. intros q. apply grade_fields.
Qed.

(** C5: once the record is persisted, the outcome of the feedback request
    changes neither the score, nor the graded questions, nor the store; a
    failed request leaves the fixed text "Could not generate AI feedback.";
    either way the session ends in [results]. *)
Theorem feedback_best_effort (now t : Z) (w : World)
    (r : Settled AiGeneratedFeedback) :
  quizState (page w) = taking ->
  let submitted := handleSubmitQuiz_begin now w in
  let final := step t (FeedbackSettled r) submitted in
  score (page final) = score (page submitted)
  /\ questions (page final) = questions (page submitted)
  /\ store final = store submitted
  /\ quizState (page final) = results
  /\ feedback (page final) =
     Some match r with
          | Fulfilled generatedFeedback => generatedFeedback
          | Rejected => {| text := "Could not generate AI feedback." |}
          end.
Proof.
  intros E submitted final.
  assert (Hpending : awaitingFeedback submitted <> []).
  { unfold submitted. rewrite (handleSubmitQuiz_begin_taking now w E). cbn.
    intros Hnil. by apply app_eq_nil in Hnil as [_ ?]. }
  unfold final. rewrite step_FeedbackSettled by done. cbn. done.
Qed.

End SubmitFacts.

(** ** Submission between two renders *)

Section ClosureFacts.
Context {constants : Constants}.
Import Closures.

(** On a page that is up to date the callbacks of the render are the
    handlers of [QuizPage], and the timeout is pending when [timerArmed]
    says so. *)
Lemma upToDate_handlers now w :
  current (handleSubmitQuiz now (upToDate w)) = handleSubmitQuiz_begin now w
  /\ current (timerEffect now (upToDate w)) = QuizPage.timerEffect now w
  /\ timeoutPending (timerEffect now (upToDate w)) = timerArmed w.
Proof.
  assert (H : current (handleSubmitQuiz now (upToDate w))
              = handleSubmitQuiz_begin now w).
  { unfold handleSubmitQuiz, handleSubmitQuiz_begin. cbn [rendered upToDate current].
    destruct (bool_decide (quizState (page w) = submitting)
              || bool_decide (quizState (page w) = results)); [reflexivity|].
    by destruct (gradeAll _ _ _). }
  split; [exact H|].
  unfold timerEffect, QuizPage.timerEffect, timerArmed. cbn [rendered upToDate].
  destruct (bool_decide (quizState (page w) = taking) && (0 <? timeLeft (page w))%Z);
    [done|].
  destruct ((timeLeft (page w) =? 0)%Z && bool_decide (quizState (page w) = taking));
    [|done].
  split; [exact H|].
  unfold handleSubmitQuiz. cbn [rendered upToDate].
  destruct (bool_decide (quizState (page w) = submitting)
            || bool_decide (quizState (page w) = results)); [reflexivity|].
  by destruct (gradeAll _ _ _).
Qed.

Lemma handleSubmitQuiz_guarded now m :
  quizState (page (rendered m)) = submitting
  \/ quizState (page (rendered m)) = results ->
  handleSubmitQuiz now m = m.
Proof. intros [E|E]; unfold handleSubmitQuiz; rewrite E; reflexivity. Qed.

Lemma handleSubmitQuiz_taking now m :
  quizState (page (rendered m)) = taking ->
  handleSubmitQuiz now m =
  let s := page (rendered m) in
  let answeredQuestions := List.map (grade (userAnswers s)) (questions s) in
  let calculatedScore := length (List.filter judgedCorrect answeredQuestions) in
  {| rendered := rendered m;
     current :=
       {| page := setScore calculatedScore
                    (setQuestions answeredQuestions
                       (setQuizState submitting (page (current m))));
          store := persistQuizResult now s answeredQuestions calculatedScore
                     (store (current m));
          awaitingQuestions := awaitingQuestions (current m);
          awaitingFeedback := awaitingFeedback (current m) ++
            [{| fr_score := calculatedScore;
                fr_totalQuestions := length (questions s);
                fr_sourceText := materialText (rendered m) |}] |};
     timeoutPending := false |}.
Proof.
  intros E. unfold handleSubmitQuiz. rewrite E.
  rewrite !bool_decide_eq_false_2 by done. cbn [orb].
  rewrite gradeAll_map. reflexivity.
Qed.

(** C1: the guard of [handleSubmitQuiz] reads the [quizState] of the render
    that created the callback.  A call through the callback of a render that
    read [submitting] or [results] changes nothing.  But when the last
    second elapses on the last question, the timer effect of the render that
    read [taking] with no time left submits, and a click on "Submit Quiz"
    before the next render goes through the callback of that same render:
    it passes the guard again, and the history of the content id gets two
    records where the claim says one.  A click after the next render changes
    nothing. *)
Theorem submit_twice_on_one_render (t0 now1 now2 : Z) (w : World) (c : string) :
  quizState (page w) = taking ->
  timeLeft (page w) = 1%Z ->
  contentId (page w) = Some c ->
  JS.truthy (Some c) = true ->
  (0 < length (questions (page w)))%nat ->
  currentQuestionIndex (page w) = (Z.of_nat (length (questions (page w))) - 1)%Z ->
  let history m := default [] (getQuizzesForContent c (store (current m))) in
  let armed := timerEffect t0 (upToDate w) in
  let expired := rerender now1 (timeoutCallback armed) in
  let clicked := clickSubmit now2 expired in
  (forall now m,
     quizState (page (rendered m)) = submitting
     \/ quizState (page (rendered m)) = results ->
     handleSubmitQuiz now m = m)
  /\ (timeoutPending armed = true /\ current armed = w)
  /\ quizState (page (current expired)) = submitting
  /\ (exists record, history expired = history (upToDate w) ++ [record])
  /\ quizState (page (rendered expired)) = taking
  /\ showsSubmit (page (rendered expired)) = true
  /\ (exists record1 record2,
        history clicked = history (upToDate w) ++ [record1; record2] /\
        quiz_id record1 = "quiz_" +:+ pretty now1 /\
        quiz_id record2 = "quiz_" +:+ pretty now2 /\
        quiz_questions record2 = quiz_questions record1 /\
        quiz_score record2 = quiz_score record1)
  /\ length (awaitingFeedback (current clicked))
     = (length (awaitingFeedback w) + 2)%nat
  /\ clickSubmit now2 (rerender now2 expired) = rerender now2 expired
  /\ store (current (rerender now2 expired)) = store (current expired).
Proof.
  intros E T Ec Tc Hq Hi history armed expired clicked.
  assert (Harmed : armed = {| rendered := w; current := w; timeoutPending := true |}).
  { unfold armed, timerEffect. cbn [rendered upToDate current].
    rewrite E, T. reflexivity. }
  set (w0 := render (setTimeLeft (fun _ => 0%Z)) w) in *.
  assert (Hfired : clearTimeout (commit (timeoutCallback armed)) = upToDate w0).
  { rewrite Harmed. unfold timeoutCallback. cbn [timeoutPending rendered current].
    unfold commit, clearTimeout, upToDate. cbn [rendered current timeoutPending].
    f_equal; unfold w0, render, setTimeLeft; cbn; by rewrite T. }
  assert (E0 : quizState (page w0) = taking) by exact E.
  assert (T0 : timeLeft (page w0) = 0%Z) by reflexivity.
  assert (Ec0 : contentId (page w0) = Some c) by exact Ec.
  assert (Hexpired : expired = handleSubmitQuiz now1 (upToDate w0)).
  { unfold expired, rerender. rewrite Hfired. unfold timerEffect.
    cbn [rendered upToDate]. rewrite E0, T0. reflexivity. }
  assert (Hshown : showsSubmit (page w0) = true).
  { unfold showsSubmit, QuizView.currentQ. cbn [w0 render page].
    change (quizState (setTimeLeft _ (page w))) with (quizState (page w)).
    change (questions (setTimeLeft _ (page w))) with (questions (page w)).
    change (currentQuestionIndex (setTimeLeft _ (page w)))
      with (currentQuestionIndex (page w)).
    rewrite E, Hi.
    replace (Z.of_nat (length (questions (page w))) - 1 <? 0)%Z with false
      by (symmetry; apply Z.ltb_ge; lia).
    rewrite Z.ltb_irrefl.
    rewrite (bool_decide_eq_true_2 (is_Some _)); [reflexivity|].
    apply lookup_lt_is_Some_2. lia. }
  rewrite (handleSubmitQuiz_taking now1 (upToDate w0) E0) in Hexpired.
  cbn [rendered upToDate current] in Hexpired. cbn zeta in Hexpired.
  rewrite (persistQuizResult_truthy _ _ _ _ _ c Ec0 Tc) in Hexpired.
  assert (Hclicked : clicked = handleSubmitQuiz now2 expired).
  { unfold clicked, clickSubmit. rewrite Hexpired. cbn [rendered].
    by rewrite Hshown. }
  rewrite (handleSubmitQuiz_taking now2 expired) in Hclicked
    by (rewrite Hexpired; exact E0).
  rewrite Hexpired in Hclicked. cbn [rendered current page store awaitingFeedback
    awaitingQuestions] in Hclicked. cbn zeta in Hclicked.
  rewrite (persistQuizResult_truthy _ _ _ _ _ c Ec0 Tc) in Hclicked.
  assert (Hnext : rerender now2 expired = clearTimeout (commit expired)).
  { unfold rerender, timerEffect. cbn [rendered clearTimeout commit].
    replace (quizState (page (current expired))) with submitting
      by (by rewrite Hexpired).
    rewrite !bool_decide_eq_false_2 by done. cbn [andb].
    by rewrite andb_false_r. }
  split; [apply handleSubmitQuiz_guarded|].
  split; [by rewrite Harmed|].
  split; [by rewrite Hexpired|].
  split.
  { eexists. unfold history. rewrite Hexpired. cbn [current store upToDate].
    rewrite getQuizzes_addQuizResult. cbn [default]. reflexivity. }
  split; [by rewrite Hexpired|].
  split; [by rewrite Hexpired|].
  split.
  { eexists _, _. unfold history. rewrite Hclicked. cbn [current store upToDate].
    rewrite !getQuizzes_addQuizResult. cbn [default]. unfold id.
    rewrite <- app_assoc. cbn [app].
    split; [reflexivity|]. cbn. done. }
  split.
  { rewrite Hclicked. cbn [current awaitingFeedback].
    rewrite !length_app. cbn [length]. unfold w0. cbn. lia. }
  rewrite Hnext. split; [|reflexivity].
  unfold clickSubmit. cbn [rendered clearTimeout commit].
  destruct (showsSubmit (page (current expired))); [|reflexivity].
  apply handleSubmitQuiz_guarded. left. by rewrite Hexpired.
Qed.

End ClosureFacts.

(** ** Answer capture *)

Section AnswerFacts.
Context {constants : Constants}.

Lemma userAnswers_handleSubmitQuiz_begin now w :
  userAnswers (page (handleSubmitQuiz_begin now w)) = userAnswers (page w).
Proof.
  unfold handleSubmitQuiz_begin.
  destruct (_ || _); [reflexivity|].
  destruct (gradeAll _ _ _); reflexivity.
Qed.

Lemma userAnswers_timerEffect now w :
  userAnswers (page (timerEffect now w)) = userAnswers (page w).
Proof.
  unfold timerEffect.
  destruct (_ && _); [reflexivity|].
  destruct (_ && _); [apply userAnswers_handleSubmitQuiz_begin | reflexivity].
Qed.

Lemma userAnswers_step now e w :
  userAnswers (page (step now e w)) =
  match e with
  | AnswerChanged q a => <[q := a]> (userAnswers (page w))
  | _ => userAnswers (page w)
  end.
Proof.
  destruct e; cbn [step]; rewrite ?userAnswers_timerEffect; try reflexivity.
  - unfold loadQuestions_resume.
    destruct (awaitingQuestions w); [reflexivity|].
    destruct r as [g|]; [destruct (length g =? 0)%nat|]; reflexivity.
  - unfold timeoutCallback. destruct (timerArmed w); reflexivity.
  - apply userAnswers_handleSubmitQuiz_begin.
  - unfold handleSubmitQuiz_resume.
    destruct (awaitingFeedback w); reflexivity.
Qed.

Lemma userAnswers_run q events : forall w,
  userAnswers (page (run events w)) !! q =
  match lastAnswer q events with
  | Some a => Some a
  | None => userAnswers (page w) !! q
  end.
Proof.
  induction events as [|[now e] rest IH]; intros w; cbn [run lastAnswer].
  - reflexivity.
  - rewrite IH. destruct (lastAnswer q rest); [reflexivity|].
    rewrite userAnswers_step. destruct e as [| |q' a'| | | |]; try reflexivity.
    destruct (String.eqb_spec q' q) as [->|N].
    + apply lookup_insert_eq.
    + by apply lookup_insert_ne.
Qed.

(** C7: recording answer [a] for question id [q] makes [a] the answer of
    [q], whatever was recorded before, and changes the answer of no other
    id; showing the previous or the next question changes no answer; after
    any sequence of events the answer of [q] is the one recorded last for
    [q], or the earlier one if none was recorded. *)
Theorem answers_keyed_by_id (q a : string) (w : World) :
  userAnswers (page (handleAnswerChange q a w)) !! q = Some a
  /\ (forall q', q' <> q ->
        userAnswers (page (handleAnswerChange q a w)) !! q' =
        userAnswers (page w) !! q')
  /\ (forall now,
        userAnswers (page (step now PreviousClicked w)) = userAnswers (page w) /\
        userAnswers (page (step now NextClicked w)) = userAnswers (page w))
  /\ (forall events,
        userAnswers (page (run events w)) !! q =
        match lastAnswer q events with
        | Some a' => Some a'
        | None => userAnswers (page w) !! q
        end).
Proof.
  split; [apply lookup_insert_eq|].
  split; [intros q' N; cbn; by apply lookup_insert_ne|].
  split; [intros now; split; reflexivity|].
  intros events. apply userAnswers_run.
Qed.

End AnswerFacts.

(** ** Loading *)

Section LoadFacts.
Context {constants : Constants}.


Lemma loadQuestions_begin_present w :
  JS.truthy (materialText w) = true ->
  quizState (page (loadQuestions_begin w)) = loading /\
  error (page (loadQuestions_begin w)) = None /\
  questions (page (loadQuestions_begin w)) = questions (page w) /\
  awaitingQuestions (loadQuestions_begin w) <> [].
Proof.
  intros E. unfold loadQuestions_begin. rewrite E. cbn.
  repeat split. intros Hnil. by apply app_eq_nil in Hnil as [_ ?].
Qed.


Lemma questionId_nonempty supplied suffix : questionId supplied suffix <> "".
Proof.
  unfold questionId. destruct supplied as [i|]; [|done].
  destruct (JS.truthy (Some i)) eqn:T; [|done].
  cbn in T. intros ->. done.
Qed.

Lemma prefixed_inj a b : "q-" +:+ a = "q-" +:+ b -> a = b.
Proof. cbn. by intros [=]. Qed.

(** Where the ids of the loaded questions come from, [drawn] suffixes
    having been used before. *)
Lemma assignIds_origin random generated : forall drawn,
  Forall2 (fun g q =>
      if JS.truthy (gen_id g) then gen_id g = Some (question_id q)
      else exists k, (drawn <= k < drawn + missingIds generated)%nat /\
                     question_id q = "q-" +:+ random k)
    generated (assignIds random drawn generated).
Proof.
  induction generated as [|g rest IH]; intros drawn; cbn [assignIds missingIds];
    constructor.
  - cbn. unfold questionId. destruct (gen_id g) as [i|] eqn:Ei.
    + destruct (JS.truthy (Some i)); [done|]. exists drawn. split; [lia|done].
    + cbn. exists drawn. split; [lia|done].
  - destruct (JS.truthy (gen_id g)).
    + apply IH.
    + eapply Forall2_impl; [apply IH|]. cbn. intros g' q'.
      destruct (JS.truthy (gen_id g')); [done|].
      intros (k & Hk & ->). exists k. split; [lia|done].
Qed.

Lemma assignIds_In random generated : forall drawn i,
  In i (List.map question_id (assignIds random drawn generated)) ->
  In i (suppliedIds generated) \/
  exists k, (drawn <= k < drawn + missingIds generated)%nat /\
            i = "q-" +:+ random k.
Proof.
  induction generated as [|g rest IH]; intros drawn i;
    cbn [assignIds missingIds suppliedIds List.map]; [done|].
  cbn [question_id]. unfold questionId at 1.
  destruct (gen_id g) as [j|] eqn:Ej; cbn [JS.truthy].
  - destruct (negb (j =? "")) eqn:T.
    + intros [<-|Hin]; [left; by left|].
      destruct (IH _ _ Hin) as [?|(k & ? & ?)]; [left; by right|right; eauto].
    + intros [<-|Hin]; [right; exists drawn; split; [lia|done]|].
      destruct (IH _ _ Hin) as [?|(k & ? & ?)]; [by left|].
      right; exists k; split; [lia|done].
  - intros [<-|Hin]; [right; exists drawn; split; [lia|done]|].
    destruct (IH _ _ Hin) as [?|(k & ? & ?)]; [by left|].
    right; exists k; split; [lia|done].
Qed.

Lemma assignIds_NoDup random generated : forall drawn,
  NoDup (suppliedIds generated) ->
  (forall k, (drawn <= k < drawn + missingIds generated)%nat ->
             "q-" +:+ random k ∉ suppliedIds generated) ->
  (forall j k, (drawn <= j < k)%nat -> (k < drawn + missingIds generated)%nat ->
               random j <> random k) ->
  NoDup (List.map question_id (assignIds random drawn generated)).
Proof.
  induction generated as [|g rest IH]; intros drawn;
    cbn [assignIds missingIds suppliedIds List.map]; [constructor|].
  cbn [question_id]. unfold questionId at 1.
  assert (Hfresh : forall d', (drawn < d')%nat ->
            (forall k, (drawn <= k < d' + missingIds rest)%nat ->
                       "q-" +:+ random k ∉ suppliedIds rest) ->
            (forall j k, (drawn <= j < k)%nat -> (k < d' + missingIds rest)%nat ->
                         random j <> random k) ->
            NoDup (suppliedIds rest) ->
            NoDup (("q-" +:+ random drawn)
                   :: List.map question_id (assignIds random d' rest))).
  { intros d' Hd Hs Hr Hn. apply NoDup_cons. split.
    - intros Hin%list_elem_of_In.
      destruct (assignIds_In _ _ _ _ Hin) as [Hin'%list_elem_of_In|(k & Hk & E)].
      + by apply (Hs drawn ltac:(lia)).
      + apply prefixed_inj in E. by apply (Hr drawn k ltac:(lia) ltac:(lia)).
    - apply IH; [done|intros; apply Hs; lia|intros; apply Hr; lia]. }
  destruct (gen_id g) as [j|] eqn:Ej; cbn [JS.truthy].
  - destruct (negb (j =? "")) eqn:T.
    + intros Hn Hs Hr. apply NoDup_cons in Hn as [Hj Hn].
      apply NoDup_cons. split.
      * intros Hin%list_elem_of_In.
        destruct (assignIds_In _ _ _ _ Hin) as [?%list_elem_of_In|(k & Hk & ->)];
          [done|]. apply (Hs k Hk). by left.
      * apply IH; [done| |done]. intros k Hk Hin. apply (Hs k Hk). by right.
    + intros Hn Hs Hr. apply Hfresh; [lia| | |done].
      * intros k Hk. apply Hs. lia.
      * intros j' k Hj Hk. apply Hr; lia.
  - intros Hn Hs Hr. apply Hfresh; [lia| | |done].
    + intros k Hk. apply Hs. lia.
    + intros j' k Hj Hk. apply Hr; lia.
Qed.

(** C8, as the code has it: on a successful load of a non-empty question
    set, a question that arrives with an id keeps it and a question that
    arrives without one gets "q-" followed by a random suffix, so every id
    is non-empty; the ids are pairwise distinct when the supplied ids are
    pairwise distinct, the suffixes drawn are pairwise distinct, and no
    generated id is also a supplied one; the remaining time is set to the
    configured duration and the session is in [taking]. *)
Theorem loaded_question_ids (random : nat -> string)
    (generated : list GeneratedQuestion)
    (pending : QuestionsRequest) (others : list QuestionsRequest) (w : World) :
  awaitingQuestions w = pending :: others ->
  (length generated =? 0)%nat = false ->
  let w' := loadQuestions_resume random (Fulfilled generated) w in
  quizState (page w') = taking
  /\ timeLeft (page w') = DEFAULT_QUIZ_DURATION_SECONDS
  /\ Forall2 (fun g q =>
         if JS.truthy (gen_id g) then gen_id g = Some (question_id q)
         else exists k, (k < missingIds generated)%nat /\
                        question_id q = "q-" +:+ random k)
       generated (questions (page w'))
  /\ Forall (fun q => question_id q <> "") (questions (page w'))
  /\ (NoDup (suppliedIds generated) ->
      (forall k, (k < missingIds generated)%nat ->
                 "q-" +:+ random k ∉ suppliedIds generated) ->
      (forall j k, (j < k < missingIds generated)%nat -> random j <> random k) ->
      NoDup (List.map question_id (questions (page w')))).
Proof.
  intros P G w'. unfold w', loadQuestions_resume. rewrite P, G. cbn.
  split; [done|]. split; [done|]. split; [|split].
  - eapply Forall2_impl; [apply assignIds_origin|]. cbn. intros g q.
    destruct (JS.truthy (gen_id g)); [done|].
    intros (k & Hk & ->). exists k. split; [lia|done].
  - generalize 0%nat. induction generated as [|g rest IH]; intros d; cbn;
      constructor; [apply questionId_nonempty|].
    destruct rest; [constructor|]. by apply IH.
  - intros Hn Hs Hr. apply assignIds_NoDup; [done| |].
    + intros k Hk. apply Hs. lia.
    + intros j k Hj Hk. apply Hr. lia.
Qed.

End LoadFacts.

(** ** The countdown *)

Section TimerFacts.
Context {constants : Constants}.

Lemma run_app l1 l2 : forall w, run (l1 ++ l2) w = run l2 (run l1 w).
Proof. induction l1 as [|[now e] l1 IH]; intros w; cbn; auto. Qed.

Lemma step_TimeoutFired_armed now w :
  quizState (page w) = taking -> (1 < timeLeft (page w))%Z ->
  step now TimeoutFired w =
  render (setTimeLeft (fun _ => timeLeft (page w) - 1)%Z) w.
Proof.
  intros E T. cbn [step]. rewrite timeoutCallback_armed by (done || lia).
  apply timerEffect_armed; cbn; [done|lia].
Qed.

(** While more time is left than ticks arrive, each tick takes one second
    off and nothing else changes. *)
Lemma run_ticks_countdown times : forall w,
  quizState (page w) = taking ->
  (Z.of_nat (length times) < timeLeft (page w))%Z ->
  run (ticks times) w =
  render (setTimeLeft (fun _ => timeLeft (page w) - Z.of_nat (length times))%Z) w.
Proof.
  induction times as [|now times IH]; intros w E T; cbn [ticks List.map run length].
  - destruct w as [s ? ? ?]; destruct s as [? ? ? ? tl ? ? ? ?]; cbn.
    unfold render, setTimeLeft; cbn. by rewrite Z.sub_0_r.
  - cbn [length] in T. rewrite step_TimeoutFired_armed by (done || lia).
    fold (ticks times). rewrite IH; cbn; [|done|lia].
    unfold render, setTimeLeft; cbn.
    by replace (timeLeft (page w) - 1 - Z.of_nat (length times))%Z
      with (timeLeft (page w) - Z.of_nat (S (length times)))%Z by lia.
Qed.

Lemma grade_unanswered q :
  userAnswer (grade ∅ q) = None /\ isCorrect (grade ∅ q) = Some false.
Proof.
  unfold grade, gradeQuestion; cbn. rewrite lookup_empty; cbn.
  by destruct (correctAnswer q).
Qed.

Lemma Forall_map_grade_unanswered qs :
  Forall (fun q => userAnswer q = None /\ isCorrect q = Some false)
         (List.map (grade ∅) qs) /\
  length (List.filter judgedCorrect (List.map (grade ∅) qs)) = 0%nat.
Proof.
  induction qs as [|q qs [IH1 IH2]]; cbn [List.map List.filter]; [by split|].
  pose proof (grade_unanswered q) as [Hu Hc].
  split; [by constructor|].
  replace (judgedCorrect (grade ∅ q)) with false; [exact IH2|].
  unfold judgedCorrect. rewrite Hc. by rewrite bool_decide_eq_false_2.
Qed.

(** A submission without any recorded answer, before and after its
    feedback call has settled. *)
Lemma submit_unanswered now t r w :
  quizState (page w) = taking -> userAnswers (page w) = ∅ ->
  let submitted := handleSubmitQuiz_begin now w in
  let final := step t (FeedbackSettled r) submitted in
  (quizState (page submitted) = submitting /\
   Forall (fun q => userAnswer q = None /\ isCorrect q = Some false)
          (questions (page submitted)) /\
   length (questions (page submitted)) = length (questions (page w)) /\
   score (page submitted) = 0%nat /\
   length (awaitingFeedback submitted) = S (length (awaitingFeedback w))) /\
  (awaitingFeedback w = [] ->
   quizState (page final) = results /\
   questions (page final) = questions (page submitted) /\
   score (page final) = 0%nat /\
   store final = store submitted /\
   awaitingFeedback final = []).
Proof.
  intros E U submitted final. unfold final, submitted.
  pose proof (Forall_map_grade_unanswered (questions (page w))) as [Hall Hnone].
  rewrite (handleSubmitQuiz_begin_taking now w E). cbn zeta. rewrite U.
  split.
  - cbn [page questions score quizState awaitingFeedback setScore setQuestions
         setQuizState].
    rewrite length_map, length_app. cbn [length].
    split; [done|]. split; [done|]. split; [done|]. split; [done|]. lia.
  - intros Hnone'. rewrite step_FeedbackSettled;
      cbn [awaitingFeedback]; rewrite Hnone'; [|done].
    cbn. done.
Qed.

(** The session right after a successful load, before the timer effect. *)
Lemma load_success c st random generated :
  JS.truthy (materialText (initialWorld (Some c) st)) = true ->
  (length generated =? 0)%nat = false ->
  let loaded := loadQuestions_resume random (Fulfilled generated)
                  (mountEffect true (initialWorld (Some c) st)) in
  quizState (page loaded) = taking /\
  timeLeft (page loaded) = DEFAULT_QUIZ_DURATION_SECONDS /\
  userAnswers (page loaded) = ∅ /\
  questions (page loaded) = assignIds random 0 generated.
Proof.
  intros T G. cbn [mountEffect negb]. unfold loadQuestions_begin.
  rewrite T. cbn [negb]. unfold loadQuestions_resume. cbn. rewrite G. cbn. done.
Qed.

Lemma length_assignIds random generated : forall drawn,
  length (assignIds random drawn generated) = length generated.
Proof. induction generated; intros; cbn; auto. Qed.

(** C3: while a session is in [taking] with time left, a tick takes one
    second off; a tick with more than one second left changes nothing else,
    and the tick of the last second does what a click on the submit button
    would do with no time left; outside [taking] no tick arrives.  Hence a
    session loaded with the configured duration [D] and never answered
    counts down for [D] ticks and is then in [submitting], with every
    question unanswered and incorrect and the score 0; it is in [results]
    once the feedback call has settled, whichever way. *)
Theorem timer_expiry (c : string) (st : Store) (random : nat -> string)
    (generated : list GeneratedQuestion) (t0 t' : Z) (times : list Z)
    (r : Settled AiGeneratedFeedback) :
  JS.truthy (materialText (initialWorld (Some c) st)) = true ->
  (length generated =? 0)%nat = false ->
  Z.of_nat (length times) = DEFAULT_QUIZ_DURATION_SECONDS ->
  let started := step t0 (QuestionsSettled random (Fulfilled generated))
                   (mountEffect true (initialWorld (Some c) st)) in
  let after k := run (ticks (take k times)) started in
  let expired := after (length times) in
  let final := step t' (FeedbackSettled r) expired in
  (forall now w,
     quizState (page w) = taking -> (0 < timeLeft (page w))%Z ->
     let w' := step now TimeoutFired w in
     timeLeft (page w') = (timeLeft (page w) - 1)%Z /\
     ((1 < timeLeft (page w))%Z ->
        w' = render (setTimeLeft (fun _ => timeLeft (page w) - 1)%Z) w) /\
     (timeLeft (page w) = 1%Z ->
        w' = step now SubmitClicked (render (setTimeLeft (fun _ => 0%Z)) w)))
  /\ (forall now w, quizState (page w) <> taking -> step now TimeoutFired w = w)
  /\ (forall k, (k < length times)%nat ->
        quizState (page (after k)) = taking /\
        timeLeft (page (after k)) = (DEFAULT_QUIZ_DURATION_SECONDS - Z.of_nat k)%Z)
  /\ (quizState (page expired) = submitting /\
      Forall (fun q => userAnswer q = None /\ isCorrect q = Some false)
             (questions (page expired)) /\
      length (questions (page expired)) = length generated /\
      score (page expired) = 0%nat /\
      length (awaitingFeedback expired) = 1%nat)
  /\ (quizState (page final) = results /\
      questions (page final) = questions (page expired) /\
      score (page final) = 0%nat /\
      store final = store expired).
Proof.
  intros T G D started after expired final.
  pose proof (load_success c st random generated T G) as (Ls & Lt & Lu & Lq).
  assert (Lp : awaitingFeedback
                 (loadQuestions_resume random (Fulfilled generated)
                    (mountEffect true (initialWorld (Some c) st))) = []).
  { cbn [mountEffect negb]. unfold loadQuestions_begin. rewrite T. cbn [negb].
    unfold loadQuestions_resume. cbn. rewrite G. reflexivity. }
  assert (Hstarted : started =
            timerEffect t0 (loadQuestions_resume random (Fulfilled generated)
                              (mountEffect true (initialWorld (Some c) st))))
    by reflexivity.
  revert Ls Lt Lu Lq Lp Hstarted.
  generalize (loadQuestions_resume random (Fulfilled generated)
                (mountEffect true (initialWorld (Some c) st))).
  clearbody started. intros loaded Ls Lt Lu Lq Lp Hstarted.
  (* a positive duration: the effect arms the timeout *)
  assert (Hpos : (0 < length times)%nat -> started = loaded).
  { intros P. rewrite Hstarted. apply timerEffect_armed; [done|lia]. }
  assert (Hafter : forall k, (k < length times)%nat ->
            after k = render (setTimeLeft (fun _ =>
                        DEFAULT_QUIZ_DURATION_SECONDS - Z.of_nat k)%Z) loaded).
  { intros k Hk. unfold after. rewrite (Hpos ltac:(lia)).
    rewrite run_ticks_countdown; rewrite ?length_take, ?Lt; try done; try lia.
    by replace (k `min` length times)%nat with k by lia. }
  (* the session when the time is up *)
  assert (Hexpired : exists now w,
            expired = handleSubmitQuiz_begin now w /\
            quizState (page w) = taking /\ userAnswers (page w) = ∅ /\
            questions (page w) = questions (page loaded) /\
            awaitingFeedback w = []).
  { destruct (length times) as [|k] eqn:Hlen.
    - exists t0, loaded. split; [|done].
      unfold expired, after. cbn [take ticks List.map run].
      rewrite Hstarted. apply timerEffect_expired; [done|lia].
    - destruct (lookup_lt_is_Some_2 times k ltac:(lia)) as [now Hnow].
      exists now, (render (setTimeLeft (fun _ => 0%Z)) (after k)).
      split.
      + unfold expired, after at 1.
        rewrite (take_S_r _ _ _ Hnow). unfold ticks. rewrite map_app.
        cbn [List.map]. fold (ticks (take k times)). rewrite run_app.
        fold (after k). cbn [run].
        apply step_TimeoutFired_last; rewrite (Hafter k ltac:(lia));
          [exact Ls|cbn [render page setTimeLeft timeLeft]; lia].
      + rewrite (Hafter k ltac:(lia)). done. }
  destruct Hexpired as (now & w & -> & Ew & Uw & Qw & Pw).
  pose proof (submit_unanswered now t' r w Ew Uw) as (Hsub & Hfin).
  cbn zeta in Hsub, Hfin. specialize (Hfin Pw).
  split; [|split; [|split; [|split]]].
  - intros now' w' E' T'. cbn zeta. split; [|split].
    + destruct (decide (timeLeft (page w') = 1%Z)) as [One|More].
      * rewrite step_TimeoutFired_last by done.
        rewrite handleSubmitQuiz_begin_taking by done. cbn. lia.
      * rewrite step_TimeoutFired_armed by (done || lia). reflexivity.
    + intros More. by apply step_TimeoutFired_armed.
    + intros One. rewrite step_SubmitClicked. by apply step_TimeoutFired_last.
  - intros now' w' N'. by apply step_TimeoutFired_idle.
  - intros k Hk. rewrite (Hafter k Hk). split; [exact Ls|reflexivity].
  - destruct Hsub as (? & ? & Hl & ? & Hp).
    rewrite Qw, Lq, length_assignIds in Hl. rewrite Pw in Hp. done.
  - destruct Hfin as (? & ? & ? & ? & _). done.
Qed.

End TimerFacts.

(** ** The dashboard *)

Section DashboardFacts.

Lemma countQuiz_counted totals quiz :
  countQuiz totals quiz =
  if countedQuiz quiz
  then (totals.1 + default 0 (quiz_score quiz),
        totals.2 + length (quiz_questions quiz))%nat
  else totals.
Proof.
  unfold countQuiz, countedQuiz. destruct (quiz_score quiz); [|done].
  by destruct (0 <? _)%nat.
Qed.

Lemma fold_countQuiz quizzes : forall totals,
  fold_left countQuiz quizzes totals =
  (totals.1 + sumScores (List.filter countedQuiz quizzes),
   totals.2 + sumQuestions (List.filter countedQuiz quizzes))%nat.
Proof.
  induction quizzes as [|quiz rest IH]; intros [a b]; cbn [fold_left List.filter].
  - cbn. f_equal; lia.
  - rewrite IH, countQuiz_counted. destruct (countedQuiz quiz); cbn; f_equal; lia.
Qed.

Lemma sumScores_app l1 l2 : sumScores (l1 ++ l2) = (sumScores l1 + sumScores l2)%nat.
Proof. induction l1; cbn; lia. Qed.

Lemma sumQuestions_app l1 l2 :
  sumQuestions (l1 ++ l2) = (sumQuestions l1 + sumQuestions l2)%nat.
Proof. induction l1; cbn; lia. Qed.

Lemma fold_countMaterial s materials : forall totals,
  let seen := flat_map (fun material =>
                default [] (getQuizzesForContent (material_id material) s))
                materials in
  fold_left (countMaterial s) materials totals =
  (totals.1 + sumScores (List.filter countedQuiz seen),
   totals.2 + sumQuestions (List.filter countedQuiz seen))%nat.
Proof.
  induction materials as [|material rest IH]; intros [a b];
    cbn [fold_left flat_map].
  - cbn. f_equal; lia.
  - rewrite IH.
    set (own := default [] (getQuizzesForContent (material_id material) s)).
    assert (Hown : countMaterial s (a, b) material =
              (a + sumScores (List.filter countedQuiz own),
               b + sumQuestions (List.filter countedQuiz own))%nat).
    { unfold countMaterial, own.
      destruct (getQuizzesForContent (material_id material) s) as [quizzes|];
        cbn [default]; [by rewrite fold_countQuiz|].
      cbn [List.filter sumScores sumQuestions]. f_equal; lia. }
    rewrite Hown. cbn [fst snd].
    rewrite List.filter_app, sumScores_app, sumQuestions_app. f_equal; lia.
Qed.

Lemma getAverageQuizScore_totals s :
  getAverageQuizScore s =
  let countedQuizzes := List.filter countedQuiz (storedQuizzes s) in
  if (sumQuestions countedQuizzes =? 0)%nat then 0%float
  else JS.parseFloat (JS.toFixed 1
         (JS.number (sumScores countedQuizzes)
          / JS.number (sumQuestions countedQuizzes) * 100)%float).
Proof.
  unfold getAverageQuizScore. rewrite fold_countMaterial. reflexivity.
Qed.








Lemma countQuiz_empty totals quiz :
  quiz_questions quiz = [] -> countQuiz totals quiz = totals.
Proof. intros E. unfold countQuiz. rewrite E. by destruct (quiz_score quiz). Qed.

Lemma fold_countQuiz_withoutEmpty quizzes : forall totals,
  fold_left countQuiz
    (List.filter (fun quiz => (0 <? length (quiz_questions quiz))%nat) quizzes)
    totals
  = fold_left countQuiz quizzes totals.
Proof.
  induction quizzes as [|quiz rest IH]; intros totals; cbn [List.filter fold_left];
    [done|].
  destruct (0 <? length (quiz_questions quiz))%nat eqn:E; cbn [fold_left].
  - apply IH.
  - rewrite IH. f_equal. symmetry. apply countQuiz_empty.
    apply Nat.ltb_ge in E. destruct (quiz_questions quiz); [done|cbn in E; lia].
Qed.

Lemma fold_countMaterial_withoutEmpty s materials : forall totals,
  fold_left (countMaterial (withoutEmptyQuizzes s)) materials totals =
  fold_left (countMaterial s) materials totals.
Proof.
  induction materials as [|material rest IH]; intros totals; cbn [fold_left];
    [done|].
  rewrite IH. f_equal. unfold countMaterial, getQuizzesForContent. cbn.
  rewrite lookup_fmap. destruct (quizzes s !! material_id material); cbn; [|done].
  apply fold_countQuiz_withoutEmpty.
Qed.

(** C10: with no question the results view computes 0 and shows "0%"; the
    dashboard average is the same with or without the quizzes that have no
    question, whatever their score, and it is 0 when no stored quiz is
    counted; the last score of a material is not shown for a quiz without
    questions. *)
Theorem percentages_guarded (p : State) (s : Store) :
  (questions p = [] ->
     percentage p = 0%float /\ percentageText p = "0%")
  /\ (forall totals quiz,
        quiz_questions quiz = [] -> countQuiz totals quiz = totals)
  /\ getAverageQuizScore s = getAverageQuizScore (withoutEmptyQuizzes s)
  /\ (Forall (fun quiz => countedQuiz quiz = false) (storedQuizzes s) ->
      getAverageQuizScore s = 0%float)
  /\ (forall quizzes lastQuiz,
        last quizzes = Some lastQuiz -> quiz_questions lastQuiz = [] ->
        lastQuizScore (Some quizzes) = None).
Proof.
  split; [|split; [|split; [|split]]].
  - intros E. unfold percentageText, percentage. rewrite E. by vm_compute.
  - apply countQuiz_empty.
  - unfold getAverageQuizScore. cbn [withoutEmptyQuizzes studyMaterials].
    by rewrite fold_countMaterial_withoutEmpty.
  - intros Hnone. rewrite getAverageQuizScore_totals. cbn zeta.
    replace (List.filter countedQuiz (storedQuizzes s)) with (@nil Quiz); [done|].
    induction Hnone as [|quiz rest E _ IH]; cbn [List.filter]; [done|].
    by rewrite E.
  - intros quizzes lastQuiz L E. unfold lastQuizScore. rewrite L, E.
    by destruct (quiz_score lastQuiz).
Qed.

End DashboardFacts.

(** ** The properties at the sample session *)

Lemma grading_rule_witness :
  quizState (page Sample.session) = taking /\
  score (page (handleSubmitQuiz_begin (constants := Sample.constants)
                 1700000000000 Sample.session)) = 1%nat.
Proof.
  split; [reflexivity|].
  destruct (grading_rule (constants := Sample.constants) 1700000000000
              Sample.session eq_refl) as (_ & Hscore & _).
  rewrite Hscore. vm_compute. reflexivity.
Defined.

Lemma feedback_best_effort_witness :
  quizState (page Sample.session) = taking /\
  quizState (page (step (constants := Sample.constants) 1700000000900
                     (FeedbackSettled Rejected)
                     (handleSubmitQuiz_begin (constants := Sample.constants)
                        1700000000000 Sample.session))) = results.
Proof.
  split; [reflexivity|].
  destruct (feedback_best_effort (constants := Sample.constants)
              1700000000000 1700000000900 Sample.session Rejected eq_refl)
    as (_ & _ & _ & Hresults & _).
  exact Hresults.
Defined.

Lemma quiz_record_persisted_witness :
  quizState (page Sample.session) = taking /\
  contentId (page Sample.session) = Some "m1" /\
  JS.truthy (Some "m1") = true /\
  exists record,
    getQuizzesForContent "m1"
      (store (handleSubmitQuiz_begin (constants := Sample.constants)
                1700000000000 Sample.session)) = Some [record] /\
    quiz_score record = Some 1%nat /\
    durationSeconds record = 2%Z.
Proof.
  split; [reflexivity|]. split; [reflexivity|]. split; [reflexivity|].
  destruct (quiz_record_persisted (constants := Sample.constants)
              1700000000000 Sample.session "m1" eq_refl eq_refl eq_refl)
    as (_ & Hhistory & _).
  eexists. split; [exact Hhistory|]. split; vm_compute; reflexivity.
Defined.

Lemma timer_expiry_witness :
  JS.truthy (materialText (initialWorld (constants := Sample.constants)
                             (Some "m1") Sample.library)) = true /\
  (length [Sample.withId "q1"; Sample.withoutId] =? 0)%nat = false /\
  Z.of_nat (length [1700000001000; 1700000002000; 1700000003000]%Z)
    = DEFAULT_QUIZ_DURATION_SECONDS (Constants := Sample.constants) /\
  quizState (page
    (step (constants := Sample.constants) 1700000003500
       (FeedbackSettled Rejected)
       (run (constants := Sample.constants)
          (ticks [1700000001000; 1700000002000; 1700000003000]%Z)
          (step (constants := Sample.constants) 1700000000000
             (QuestionsSettled Sample.counting
                (Fulfilled [Sample.withId "q1"; Sample.withoutId]))
             Sample.mounted)))) = results.
Proof.
  split; [reflexivity|]. split; [reflexivity|]. split; [reflexivity|].
  destruct (timer_expiry (constants := Sample.constants) "m1" Sample.library
              Sample.counting [Sample.withId "q1"; Sample.withoutId]
              1700000000000 1700000003500
              [1700000001000; 1700000002000; 1700000003000]%Z Rejected
              eq_refl eq_refl eq_refl) as (_ & _ & _ & _ & Hfinal & _).
  exact Hfinal.
Defined.

(** C3 as stated fails: after the ticks of the configured duration the
    session of the sample is in [submitting], with its feedback call in
    flight, and not yet in [results]. *)
Lemma expired_not_in_results :
  let expired :=
    run (constants := Sample.constants)
      (ticks [1700000001000; 1700000002000; 1700000003000]%Z)
      (step (constants := Sample.constants) 1700000000000
         (QuestionsSettled Sample.counting
            (Fulfilled [Sample.withId "q1"; Sample.withoutId]))
         Sample.mounted) in
  Z.of_nat (length [1700000001000; 1700000002000; 1700000003000]%Z)
    = DEFAULT_QUIZ_DURATION_SECONDS (Constants := Sample.constants)
  /\ quizState (page expired) = submitting
  /\ quizState (page expired) <> results
  /\ length (awaitingFeedback expired) = 1%nat
  /\ feedback (page expired) = None.
Proof.
  cbn zeta. split; [reflexivity|]. split; [vm_compute; reflexivity|].
  split; [vm_compute; discriminate|]. split; vm_compute; reflexivity.
Qed.


Lemma loaded_question_ids_witness :
  awaitingQuestions Sample.mounted =
    [{| qr_sourceText := "Paris is the capital of France."; qr_count := 5 |}] /\
  (length [Sample.withId "q1"; Sample.withoutId] =? 0)%nat = false /\
  List.map question_id
    (questions (page
       (loadQuestions_resume (constants := Sample.constants) Sample.counting
          (Fulfilled [Sample.withId "q1"; Sample.withoutId]) Sample.mounted)))
  = ["q1"; "q-0"] /\
  NoDup (List.map question_id
    (questions (page
       (loadQuestions_resume (constants := Sample.constants) Sample.counting
          (Fulfilled [Sample.withId "q1"; Sample.withoutId]) Sample.mounted)))).
Proof.
  split; [reflexivity|]. split; [reflexivity|]. split; [reflexivity|].
  destruct (loaded_question_ids (constants := Sample.constants) Sample.counting
              [Sample.withId "q1"; Sample.withoutId] _ _ Sample.mounted
              eq_refl eq_refl) as (_ & _ & _ & _ & Hdistinct).
  apply Hdistinct.
  - apply NoDup_singleton.
  - intros k _ Hin. apply list_elem_of_singleton in Hin. discriminate Hin.
  - intros j k Hjk. cbn in Hjk. lia.
Defined.

(** C8 as stated fails: two questions that arrive with the same id keep it,
    and two missing ids that draw the same suffix get the same generated
    id; either way the session is in [taking] with ids that are not
    pairwise distinct. *)
Lemma loaded_ids_not_distinct :
  (let w := loadQuestions_resume (constants := Sample.constants) Sample.counting
              (Fulfilled [Sample.withId "q1"; Sample.withId "q1"])
              Sample.mounted in
   quizState (page w) = taking /\
   List.map question_id (questions (page w)) = ["q1"; "q1"] /\
   ~ NoDup (List.map question_id (questions (page w))))
  /\
  (let w := loadQuestions_resume (constants := Sample.constants) Sample.stuck
              (Fulfilled [Sample.withoutId; Sample.withoutId])
              Sample.mounted in
   quizState (page w) = taking /\
   List.map question_id (questions (page w)) = ["q-4fzzzxjyl"; "q-4fzzzxjyl"] /\
   ~ NoDup (List.map question_id (questions (page w)))).
Proof.
  split; cbn zeta.
  all: split; [reflexivity|]; split; [reflexivity|].
  all: intros Hn; apply NoDup_cons in Hn as [Hnotin _]; apply Hnotin; by left.
Qed.

Lemma submit_twice_on_one_render_witness :
  quizState (page Examples.lastQuestion) = taking /\
  timeLeft (page Examples.lastQuestion) = 1%Z /\
  contentId (page Examples.lastQuestion) = Some "m1" /\
  JS.truthy (Some "m1") = true /\
  (0 < length (questions (page Examples.lastQuestion)))%nat /\
  currentQuestionIndex (page Examples.lastQuestion)
    = (Z.of_nat (length (questions (page Examples.lastQuestion))) - 1)%Z /\
  List.map quiz_id
    (default []
       (getQuizzesForContent "m1"
          (store (Closures.current
             (Closures.clickSubmit (constants := Sample.constants) 1700000001100
                (Closures.rerender (constants := Sample.constants) 1700000001000
                   (Closures.timeoutCallback
                      (Closures.timerEffect (constants := Sample.constants)
                         1700000000000
                         (Closures.upToDate Examples.lastQuestion)))))))))
  = ["quiz_1700000001000"; "quiz_1700000001100"].
Proof.
  split; [reflexivity|]. split; [reflexivity|]. split; [reflexivity|].
  split; [reflexivity|]. split; [cbn; lia|]. split; [reflexivity|].
  destruct (submit_twice_on_one_render (constants := Sample.constants)
              1700000000000 1700000001000 1700000001100 Examples.lastQuestion
              "m1" eq_refl eq_refl eq_refl eq_refl ltac:(cbn; lia) eq_refl)
    as (_ & _ & _ & _ & _ & _ &
        (record1 & record2 & Hhistory & Hid1 & Hid2 & _) & _).
  cbn zeta in Hhistory. rewrite Hhistory, map_app. cbn [List.map].
  rewrite Hid1, Hid2. vm_compute. reflexivity.
Defined.



(** ** The session as a whole *)

Section SessionFacts.
Context {constants : Constants}.
Import Session.

Lemma length_filter_le {A} (f : A -> bool) (l : list A) :
  (length (List.filter f l) <= length l)%nat.
Proof. induction l as [|x l IH]; cbn; [lia|]. destruct (f x); cbn; lia. Qed.

Lemma invariant_start c w :
  quizState (page w) = taking -> awaitingQuestions w = [] ->
  awaitingFeedback w = [] -> contentId (page w) = Some c ->
  invariant c w w.
Proof.
  intros E Q F C. unfold invariant. rewrite E.
  repeat split; try done; lia.
Qed.

Lemma invariant_submit c w0 now w :
  JS.truthy (Some c) = true ->
  invariant c w0 w -> invariant c w0 (handleSubmitQuiz_begin now w).
Proof.
  intros Tc (Q & C & T & T0 & L & I).
  destruct (quizState (page w)) eqn:E; [done| |
    rewrite handleSubmitQuiz_begin_guarded by auto; unfold invariant;
      by rewrite E ..].
  destruct I as (S0 & F & Qs).
  rewrite (handleSubmitQuiz_begin_taking now w E). unfold invariant. cbn.
  rewrite F, length_map.
  split; [done|]. split; [done|]. split; [done|]. split; [done|].
  split; [done|]. split; [done|]. split.
  { etransitivity; [apply length_filter_le|]. by rewrite length_map. }
  exists now. rewrite (persistQuizResult_truthy _ _ _ _ _ c C Tc), S0.
  reflexivity.
Qed.

Lemma invariant_timerEffect c w0 now w :
  JS.truthy (Some c) = true ->
  invariant c w0 w -> invariant c w0 (timerEffect now w).
Proof.
  intros Tc I. unfold timerEffect.
  destruct (_ && _); [done|].
  destruct (_ && _); [by apply invariant_submit | done].
Qed.

(** A state update that leaves alone what the invariant speaks of. *)
Lemma invariant_render c w0 f w :
  (forall s, contentId (f s) = contentId s /\ questions (f s) = questions s /\
             timeLeft (f s) = timeLeft s /\ quizState (f s) = quizState s /\
             score (f s) = score s) ->
  invariant c w0 w -> invariant c w0 (render f w).
Proof.
  intros Hf (Q & C & T & T0 & L & I).
  destruct (Hf (page w)) as (Hc & Hq & Ht & Hs & Hsc).
  unfold invariant, recordOf. cbn. rewrite Hc, Hq, Ht, Hs, Hsc. done.
Qed.

Lemma invariant_step c w0 now e w :
  JS.truthy (Some c) = true ->
  invariant c w0 w -> invariant c w0 (step now e w).
Proof.
  intros Tc I. destruct e as [random r| |q a| | | |r]; cbn [step].
  - apply invariant_timerEffect; [done|].
    unfold loadQuestions_resume. destruct I as (Q & ?). by rewrite Q.
  - apply invariant_timerEffect; [done|].
    unfold timeoutCallback, timerArmed.
    destruct (bool_decide _) eqn:B; cbn [andb]; [|done].
    destruct (0 <? timeLeft (page w))%Z eqn:P; [|done].
    apply bool_decide_eq_true in B. apply Z.ltb_lt in P.
    destruct I as (Q & C & T & T0 & L & I). rewrite B in I.
    unfold invariant. cbn. rewrite B. repeat split; try tauto; lia.
  - apply invariant_timerEffect; [done|]. by apply invariant_render.
  - by apply invariant_render.
  - by apply invariant_render.
  - apply invariant_timerEffect; [done|]. by apply invariant_submit.
  - apply invariant_timerEffect; [done|].
    unfold handleSubmitQuiz_resume.
    destruct I as (Q & C & T & T0 & L & I).
    destruct (awaitingFeedback w) as [|x rest] eqn:F; [unfold invariant; by rewrite F|].
    destruct (quizState (page w)) eqn:E; try done.
    + by destruct I as (_ & [=] & _).
    + destruct I as (Hlen & Hsc & now' & Hst). cbn in Hlen.
      destruct rest; [|done].
      unfold invariant. cbn. repeat split; try tauto; try done.
      exists now'. exact Hst.
    + by destruct I as ([=] & _).
Qed.

Lemma invariant_run c w0 events : forall w,
  JS.truthy (Some c) = true ->
  invariant c w0 w -> invariant c w0 (run events w).
Proof.
  induction events as [|[now e] rest IH]; intros w Tc I; cbn [run]; [done|].
  apply IH; [done|]. by apply invariant_step.
Qed.



(** X5: no event adds or removes a question; until the submission the
    questions are untouched, and from then on the score is at most the
    number of questions. *)
Theorem score_within_questions (events : list (Z * Event)) (w : World)
    (c : string) :
  quizState (page w) = taking ->
  awaitingQuestions w = [] ->
  awaitingFeedback w = [] ->
  contentId (page w) = Some c ->
  JS.truthy (Some c) = true ->
  let w' := run events w in
  length (questions (page w')) = length (questions (page w)) /\
  (quizState (page w') = taking -> questions (page w') = questions (page w)) /\
  (quizState (page w') <> taking ->
   (score (page w') <= length (questions (page w)))%nat).
Proof.
  intros E Q F C Tc w'.
  pose proof (invariant_run c w events w Tc (invariant_start c w E Q F C))
    as (_ & _ & _ & _ & L & I).
  fold w' in I, L. split; [done|].
  destruct (quizState (page w')) eqn:E'; [done| | |].
  - split; [intros _; tauto|done].
  - split; [done|]. intros _. rewrite <- L. tauto.
  - split; [done|]. intros _. rewrite <- L. tauto.
Qed.

Lemma sameOutcome_refl w : sameOutcome w w.
Proof. by repeat split. Qed.

Lemma sameOutcome_step now e w :
  quizState (page w) = results -> awaitingQuestions w = [] ->
  awaitingFeedback w = [] ->
  sameOutcome w (step now e w).
Proof.
  intros E Q F.
  assert (Hrender : forall f,
            (forall s, quizState (f s) = quizState s /\
                       questions (f s) = questions s /\ score (f s) = score s /\
                       timeLeft (f s) = timeLeft s /\
                       feedback (f s) = feedback s /\ error (f s) = error s) ->
            sameOutcome w (render f w)).
  { intros f Hf. destruct (Hf (page w)) as (? & ? & ? & ? & ? & ?).
    unfold sameOutcome. cbn. done. }
  destruct e as [random r| |q a| | | |r]; cbn [step].
  - unfold loadQuestions_resume. rewrite Q.
    rewrite timerEffect_idle by (by rewrite E). apply sameOutcome_refl.
  - change (timerEffect now (timeoutCallback w)) with (step now TimeoutFired w).
    rewrite step_TimeoutFired_idle by (by rewrite E). apply sameOutcome_refl.
  - rewrite timerEffect_idle by (cbn; by rewrite E). by apply Hrender.
  - by apply Hrender.
  - by apply Hrender.
  - rewrite handleSubmitQuiz_begin_guarded by auto.
    rewrite timerEffect_idle by (by rewrite E). apply sameOutcome_refl.
  - unfold handleSubmitQuiz_resume. rewrite F.
    rewrite timerEffect_idle by (by rewrite E). apply sameOutcome_refl.
Qed.

(** X2: [results] is final.  With no gateway call in flight, no event
    changes the state, the questions, the score, the time left, the
    feedback, the error or the store of a session in [results]. *)
Theorem results_terminal (events : list (Z * Event)) (w : World) :
  quizState (page w) = results ->
  awaitingQuestions w = [] ->
  awaitingFeedback w = [] ->
  sameOutcome w (run events w).
Proof.
  revert w. induction events as [|[now e] rest IH]; intros w E Q F; cbn [run].
  - apply sameOutcome_refl.
  - pose proof (sameOutcome_step now e w E Q F)
      as (E1 & Q1 & S1 & T1 & F1 & R1 & St1 & AQ1 & AF1).
    destruct (IH (step now e w)) as (E2 & Q2 & S2 & T2 & F2 & R2 & St2 & AQ2 & AF2);
      [congruence..|].
    unfold sameOutcome. repeat split; congruence.
Qed.


End SessionFacts.

(** ** The taking view *)

Section ViewFacts.
Context {constants : Constants}.
Import QuizView.

Lemma questions_length_handleSubmitQuiz_begin now w :
  length (questions (page (handleSubmitQuiz_begin now w))) =
  length (questions (page w)) /\
  currentQuestionIndex (page (handleSubmitQuiz_begin now w)) =
  currentQuestionIndex (page w) /\
  awaitingQuestions (handleSubmitQuiz_begin now w) = awaitingQuestions w.
Proof.
  unfold handleSubmitQuiz_begin.
  destruct (_ || _); [done|]. rewrite gradeAll_map. cbn.
  by rewrite length_map.
Qed.

Lemma questions_length_timerEffect now w :
  length (questions (page (timerEffect now w))) = length (questions (page w)) /\
  currentQuestionIndex (page (timerEffect now w)) = currentQuestionIndex (page w) /\
  awaitingQuestions (timerEffect now w) = awaitingQuestions w.
Proof.
  unfold timerEffect. destruct (_ && _); [done|].
  destruct (_ && _); [apply questions_length_handleSubmitQuiz_begin|done].
Qed.

(** No event but a click on Previous or Next moves the displayed question,
    and none changes the number of questions while no load is in flight. *)
Lemma index_step now e w :
  awaitingQuestions w = [] ->
  length (questions (page (step now e w))) = length (questions (page w)) /\
  awaitingQuestions (step now e w) = [] /\
  currentQuestionIndex (page (step now e w)) =
  match e with
  | PreviousClicked => Z.max 0 (currentQuestionIndex (page w) - 1)
  | NextClicked =>
      Z.min (Z.of_nat (length (questions (page w))) - 1)
            (currentQuestionIndex (page w) + 1)
  | _ => currentQuestionIndex (page w)
  end.
Proof.
  intros Q. destruct e as [random r| |q a| | | |r]; cbn [step]; try done.
  - destruct (questions_length_timerEffect now (loadQuestions_resume random r w))
      as (-> & -> & ->).
    unfold loadQuestions_resume. by rewrite Q.
  - destruct (questions_length_timerEffect now (timeoutCallback w))
      as (-> & -> & ->).
    unfold timeoutCallback. by destruct (timerArmed w).
  - destruct (questions_length_timerEffect now (handleAnswerChange q a w))
      as (-> & -> & ->). done.
  - destruct (questions_length_timerEffect now (handleSubmitQuiz_begin now w))
      as (-> & -> & ->).
    destruct (questions_length_handleSubmitQuiz_begin now w) as (-> & -> & ->).
    done.
  - destruct (questions_length_timerEffect now (handleSubmitQuiz_resume r w))
      as (-> & -> & ->).
    unfold handleSubmitQuiz_resume. by destruct (awaitingFeedback w).
Qed.

(** X6: while no load is in flight, the displayed question exists after
    any sequence of events: the index stays within the question list,
    Previous on the first question and Next on the last one leave it where
    it is. *)
Theorem navigation_in_range (events : list (Z * Event)) (w : World) :
  awaitingQuestions w = [] ->
  (0 <= currentQuestionIndex (page w) < Z.of_nat (length (questions (page w))))%Z ->
  let w' := run events w in
  (0 <= currentQuestionIndex (page w') < Z.of_nat (length (questions (page w'))))%Z
  /\ is_Some (currentQ (page w'))
  /\ (forall now, currentQuestionIndex (page w') = 0%Z ->
        currentQuestionIndex (page (step now PreviousClicked w')) = 0%Z)
  /\ (forall now,
        currentQuestionIndex (page w') = (Z.of_nat (length (questions (page w'))) - 1)%Z ->
        currentQuestionIndex (page (step now NextClicked w')) =
        currentQuestionIndex (page w')).
Proof.
  intros Q R w'.
  assert (Hinv : awaitingQuestions w' = [] /\
            (0 <= currentQuestionIndex (page w')
             < Z.of_nat (length (questions (page w'))))%Z).
  { unfold w'. clear w'. revert w Q R.
    induction events as [|[now e] rest IH]; intros w Q R; cbn [run]; [done|].
    destruct (index_step now e w Q) as (L & Q' & I).
    apply IH; [done|]. rewrite L, I. destruct e; lia. }
  destruct Hinv as [Q' R']. split; [done|]. split; [|split].
  - unfold currentQ.
    replace (currentQuestionIndex (page w') <? 0)%Z with false
      by (symmetry; apply Z.ltb_ge; lia).
    apply lookup_lt_is_Some. lia.
  - intros now Z0. destruct (index_step now PreviousClicked w' Q') as (_ & _ & ->).
    lia.
  - intros now Zl. destruct (index_step now NextClicked w' Q') as (_ & _ & ->).
    lia.
Qed.

Lemma seconds_text (s : Z) :
  (0 <= s < 60)%Z ->
  sliceLast 2 ("0" +:+ pretty s) = pretty (s / 10)%Z +:+ pretty (s mod 10)%Z.
Proof.
  intros Hs.
  assert (Hall : forallb (fun n =>
            String.eqb (sliceLast 2 ("0" +:+ pretty (Z.of_nat n)))
                       (pretty (Z.of_nat n / 10)%Z +:+ pretty (Z.of_nat n mod 10)%Z))
            (seq 0 60) = true) by (vm_compute; reflexivity).
  rewrite forallb_forall in Hall.
  specialize (Hall (Z.to_nat s)).
  rewrite Z2Nat.id in Hall by lia.
  apply String.eqb_eq, Hall, in_seq. lia.
Qed.

(** X7: for a time left that is not negative the header shows the minutes,
    a colon and exactly two digits of seconds below 60, and minutes and
    seconds add up to the time left. *)
Theorem timer_text_minutes_seconds (timeLeft : Z) :
  (0 <= timeLeft)%Z ->
  exists minutes tens units : Z,
    (0 <= minutes /\ 0 <= tens < 6 /\ 0 <= units < 10)%Z /\
    (60 * minutes + 10 * tens + units = timeLeft)%Z /\
    timerText timeLeft =
      pretty minutes +:+ ":" +:+ pretty tens +:+ pretty units.
Proof.
  intros T.
  exists (timeLeft / 60)%Z, ((timeLeft mod 60) / 10)%Z, ((timeLeft mod 60) mod 10)%Z.
  pose proof (Z.mod_pos_bound timeLeft 60 ltac:(lia)) as Hs.
  pose proof (Z.div_mod timeLeft 60 ltac:(lia)) as Hd.
  pose proof (Z.div_mod (timeLeft mod 60) 10 ltac:(lia)) as Hd'.
  pose proof (Z.mod_pos_bound (timeLeft mod 60) 10 ltac:(lia)) as Hu.
  split; [|split].
  - split; [apply Z.div_pos; lia|].
    split; [|done]. split; [apply Z.div_pos; lia|].
    apply Z.div_lt_upper_bound; lia.
  - lia.
  - unfold timerText. rewrite Z.rem_mod_nonneg by lia.
    by rewrite seconds_text.
Qed.

End ViewFacts.

(** ** The normal form of an answer *)

Section NormalFormFacts.
Import Blank.

Lemma isWhiteSpace_lowerChar c : JS.isWhiteSpace (JS.lowerChar c) = JS.isWhiteSpace c.
Proof. destruct c as [[] [] [] [] [] [] [] []]; reflexivity. Qed.

Lemma lowerChar_idem c : JS.lowerChar (JS.lowerChar c) = JS.lowerChar c.
Proof. destruct c as [[] [] [] [] [] [] [] []]; reflexivity. Qed.

Lemma toLowerCase_idem s : JS.toLowerCase (JS.toLowerCase s) = JS.toLowerCase s.
Proof. induction s as [|c s IH]; cbn; [done|]. by rewrite lowerChar_idem, IH. Qed.

Lemma toLowerCase_trimStart s :
  JS.toLowerCase (JS.trimStart s) = JS.trimStart (JS.toLowerCase s).
Proof.
  induction s as [|c s IH]; cbn [JS.toLowerCase JS.trimStart]; [done|].
  rewrite isWhiteSpace_lowerChar.
  destruct (JS.isWhiteSpace c); [done|]. cbn [JS.toLowerCase]. done.
Qed.

Lemma toLowerCase_trimEnd s :
  JS.toLowerCase (JS.trimEnd s) = JS.trimEnd (JS.toLowerCase s).
Proof.
  induction s as [|c s IH]; cbn [JS.toLowerCase JS.trimEnd]; [done|].
  rewrite <- IH, isWhiteSpace_lowerChar.
  destruct (JS.trimEnd s); cbn [JS.toLowerCase];
    [by destruct (JS.isWhiteSpace c)|done].
Qed.

Lemma toLowerCase_trim s : JS.toLowerCase (JS.trim s) = JS.trim (JS.toLowerCase s).
Proof. unfold JS.trim. by rewrite toLowerCase_trimEnd, toLowerCase_trimStart. Qed.

Lemma trimStart_idem s : JS.trimStart (JS.trimStart s) = JS.trimStart s.
Proof.
  induction s as [|c s IH]; cbn [JS.trimStart]; [done|].
  destruct (JS.isWhiteSpace c) eqn:W; [done|]. cbn [JS.trimStart]. by rewrite W.
Qed.

Lemma trimEnd_idem s : JS.trimEnd (JS.trimEnd s) = JS.trimEnd s.
Proof.
  induction s as [|c s IH]; cbn [JS.trimEnd]; [done|].
  destruct (JS.trimEnd s) as [|d r] eqn:E.
  - destruct (JS.isWhiteSpace c) eqn:W; cbn [JS.trimEnd]; [done|]. by rewrite W.
  - change (JS.trimEnd (String c (String d r)))
      with (match JS.trimEnd (String d r) with
            | EmptyString =>
                if JS.isWhiteSpace c then EmptyString else String c EmptyString
            | x => String c x
            end).
    by rewrite IH.
Qed.

Lemma trimStart_trimEnd s :
  JS.trimStart (JS.trimEnd s) = JS.trimEnd (JS.trimStart s).
Proof.
  induction s as [|c s IH]; cbn [JS.trimEnd JS.trimStart]; [done|].
  destruct (JS.isWhiteSpace c) eqn:W.
  - rewrite <- IH. destruct (JS.trimEnd s); cbn [JS.trimStart]; by rewrite ?W.
  - cbn [JS.trimEnd]. destruct (JS.trimEnd s); cbn [JS.trimStart]; by rewrite W.
Qed.

Lemma trim_idem s : JS.trim (JS.trim s) = JS.trim s.
Proof.
  unfold JS.trim.
  by rewrite trimStart_trimEnd, trimStart_idem, trimEnd_idem.
Qed.

Lemma append_nil s : "" +:+ s = s.
Proof. reflexivity. Qed.

Lemma append_cons c l s : String c l +:+ s = String c (l +:+ s).
Proof. reflexivity. Qed.

Lemma trimStart_blank l s : blank l = true -> JS.trimStart (l +:+ s) = JS.trimStart s.
Proof.
  induction l as [|c l IH]; rewrite ?append_nil, ?append_cons;
    cbn [blank JS.trimStart]; [done|].
  intros [W B]%andb_true_iff. rewrite W. by apply IH.
Qed.

Lemma trimEnd_blank r : blank r = true -> JS.trimEnd r = "".
Proof.
  induction r as [|c r IH]; cbn [blank JS.trimEnd]; [done|].
  intros [W B]%andb_true_iff. by rewrite IH, W.
Qed.

Lemma trimEnd_app_blank s r : blank r = true -> JS.trimEnd (s +:+ r) = JS.trimEnd s.
Proof.
  intros B. induction s as [|c s IH]; rewrite ?append_nil, ?append_cons;
    cbn [JS.trimEnd]; [by apply trimEnd_blank|].
  by rewrite IH.
Qed.

Lemma trimStart_app_blank s r :
  blank r = true -> JS.trimEnd (JS.trimStart (s +:+ r)) = JS.trimEnd (JS.trimStart s).
Proof.
  intros B. induction s as [|c s IH]; rewrite ?append_nil, ?append_cons;
    cbn [JS.trimStart].
  - rewrite <- trimStart_trimEnd, trimEnd_blank by done. done.
  - destruct (JS.isWhiteSpace c); [done|].
    rewrite <- append_cons. by apply trimEnd_app_blank.
Qed.

Lemma trim_padding l s r :
  blank l = true -> blank r = true -> JS.trim (l +:+ s +:+ r) = JS.trim s.
Proof.
  intros Bl Br. unfold JS.trim. rewrite trimStart_blank by done.
  rewrite <- (trimStart_idem (s +:+ r)), <- (trimStart_idem s).
  rewrite <- !trimStart_trimEnd. f_equal.
  rewrite !trimStart_trimEnd. by apply trimStart_app_blank.
Qed.

Lemma isCorrect_grade_insert ua q a :
  isCorrect (grade (<[question_id q := a]> ua) q) =
  Some match correctAnswer q with
       | Some c => String.eqb (JS.toLowerCase (JS.trim a)) (JS.toLowerCase (JS.trim c))
       | None => false
       end.
Proof.
  unfold grade, gradeQuestion. cbn. rewrite lookup_insert_eq. cbn.
  by destruct (correctAnswer q).
Qed.

(** X8: the verdict on an answer does not depend on white space around it
    nor on its case: the answer padded with white space, the answer in
    lower case, and the answer trimmed and in lower case are all graded as
    the answer itself. *)
Theorem grading_ignores_case_and_padding (ua : gmap string string)
    (q : QuizQuestion) (a l r : string) :
  blank l = true -> blank r = true ->
  let verdict answer := isCorrect (grade (<[question_id q := answer]> ua) q) in
  verdict (l +:+ a +:+ r) = verdict a
  /\ verdict (JS.toLowerCase a) = verdict a
  /\ verdict (JS.toLowerCase (JS.trim a)) = verdict a.
Proof.
  intros Bl Br verdict. unfold verdict. rewrite !isCorrect_grade_insert.
  rewrite trim_padding by done.
  rewrite <- (toLowerCase_trim a), toLowerCase_idem.
  rewrite <- (toLowerCase_trim (JS.trim a)), toLowerCase_idem.
  rewrite trim_idem. done.
Qed.

End NormalFormFacts.

(** ** The dashboard counter and the recent activity *)

Section DashboardCounterFacts.
Import Dashboard.

Lemma fold_total s materials : forall acc,
  fold_left
    (fun acc material =>
       acc + match getQuizzesForContent (material_id material) s with
             | Some quizzes => length quizzes
             | None => 0
             end)%nat materials acc =
  (acc + length (flat_map (fun material =>
            default [] (getQuizzesForContent (material_id material) s))
          materials))%nat.
Proof.
  induction materials as [|m rest IH]; intros acc; cbn [fold_left flat_map].
  - cbn. lia.
  - rewrite IH, length_app.
    destruct (getQuizzesForContent (material_id m) s); cbn; lia.
Qed.

Lemma length_stored_addQuizResult c quiz s materials :
  length (flat_map (fun material =>
            default [] (getQuizzesForContent (material_id material)
                          (addQuizResult c quiz s))) materials) =
  (length (flat_map (fun material =>
             default [] (getQuizzesForContent (material_id material) s))
           materials)
   + length (List.filter (fun material => String.eqb (material_id material) c)
               materials))%nat.
Proof.
  induction materials as [|m rest IH]; cbn [flat_map List.filter]; [done|].
  rewrite !length_app, IH.
  destruct (String.eqb_spec (material_id m) c) as [->|N].
  - rewrite getQuizzes_addQuizResult. cbn. rewrite length_app. cbn. lia.
  - rewrite getQuizzes_addQuizResult_ne by done. lia.
Qed.

(** X9: "Quizzes Taken" is the number of quizzes in the histories of the
    stored materials, counted or not in the average; a quiz result added for
    content id [c] raises it by the number of stored materials with that id:
    by one for a stored material, by nothing for an id without material. *)
Theorem total_quizzes_taken (s : Store) (c : string) (quiz : Quiz) :
  getTotalQuizzesTaken s = length (storedQuizzes s)
  /\ (length (List.filter countedQuiz (storedQuizzes s))
      <= getTotalQuizzesTaken s)%nat
  /\ getTotalQuizzesTaken (addQuizResult c quiz s) =
     (getTotalQuizzesTaken s
      + length (List.filter (fun material => String.eqb (material_id material) c)
                  (studyMaterials s)))%nat.
Proof.
  assert (Htotal : forall s', getTotalQuizzesTaken s' = length (storedQuizzes s')).
  { intros s'. unfold getTotalQuizzesTaken. by rewrite fold_total. }
  split; [apply Htotal|]. split.
  - rewrite Htotal. apply length_filter_le.
  - rewrite !Htotal. unfold storedQuizzes. cbn [addQuizResult studyMaterials].
    apply length_stored_addQuizResult.
Qed.

Lemma sums_bounded quizzes :
  forallb (fun quiz => match quiz_score quiz with
                       | Some n => (n <=? length (quiz_questions quiz))%nat
                       | None => true
                       end) quizzes = true ->
  (sumScores (List.filter countedQuiz quizzes)
   <= sumQuestions (List.filter countedQuiz quizzes))%nat.
Proof.
  induction quizzes as [|quiz rest IH]; cbn [forallb List.filter]; [done|].
  intros [Hq Hrest]%andb_true_iff. specialize (IH Hrest).
  destruct (countedQuiz quiz) eqn:C; [|exact IH].
  cbn [sumScores sumQuestions]. unfold countedQuiz in C.
  destruct (quiz_score quiz) as [n|]; [|done].
  apply Nat.leb_le in Hq. unfold default. cbn. lia.
Qed.

(** X10: when no stored quiz has a score above its number of questions,
    the total score that [getAverageQuizScore] divides is at most the total
    number of questions it divides by. *)
Theorem average_totals_bounded (s : Store) :
  forallb (fun quiz => match quiz_score quiz with
                       | Some n => (n <=? length (quiz_questions quiz))%nat
                       | None => true
                       end) (storedQuizzes s) = true ->
  let totals := fold_left (countMaterial s) (studyMaterials s) (0, 0)%nat in
  (totals.1 <= totals.2)%nat.
Proof.
  intros Hall totals. unfold totals. rewrite fold_countMaterial. cbn [fst snd].
  by apply sums_bounded.
Qed.

End DashboardCounterFacts.

Section RecentActivityFacts.
Import Dashboard.
Variable getTime : StudyMaterial -> Z.

Local Abbreviation newerFirst :=
  (fun a b : StudyMaterial => (getTime b - getTime a)%Z).
Local Abbreviation notOlder :=
  (fun a b : StudyMaterial => (getTime b <= getTime a)%Z).

Lemma insertBy_Permutation x l : insertBy newerFirst x l ≡ₚ x :: l.
Proof.
  induction l as [|y rest IH]; cbn [insertBy]; [done|].
  destruct (_ <=? _)%Z; [done|]. rewrite IH. apply Permutation_swap.
Qed.

Lemma sortBy_Permutation l : sortBy newerFirst l ≡ₚ l.
Proof.
  induction l as [|x rest IH]; cbn; [done|].
  fold (sortBy newerFirst rest). by rewrite insertBy_Permutation, IH.
Qed.

Lemma insertBy_sorted x l :
  StronglySorted notOlder l -> StronglySorted notOlder (insertBy newerFirst x l).
Proof.
  induction 1 as [|y rest Hs IH Hall]; cbn [insertBy].
  - repeat constructor.
  - destruct (newerFirst x y <=? 0)%Z eqn:E.
    + apply Z.leb_le in E. constructor; [by constructor|].
      constructor; [cbn beta in *; lia|].
      eapply Forall_impl; [exact Hall|].
      intros z Hz. cbn beta in *. lia.
    + apply Z.leb_gt in E. constructor; [done|].
      rewrite insertBy_Permutation. constructor; [|done].
      cbn beta in *. lia.
Qed.

Lemma sortBy_sorted l : StronglySorted notOlder (sortBy newerFirst l).
Proof.
  induction l as [|x rest IH]; cbn; [constructor|].
  by apply insertBy_sorted.
Qed.

Lemma filter_insertBy t x l :
  List.filter (fun m => (getTime m =? t)%Z) (insertBy newerFirst x l) =
  List.filter (fun m => (getTime m =? t)%Z) (x :: l).
Proof.
  induction l as [|y rest IH]; cbn [insertBy]; [done|].
  destruct (newerFirst x y <=? 0)%Z eqn:E; [done|].
  apply Z.leb_gt in E. cbn beta in E.
  cbn [List.filter] in *. rewrite IH.
  destruct (getTime x =? t)%Z eqn:Ex; [|done].
  apply Z.eqb_eq in Ex.
  replace (getTime y =? t)%Z with false; [done|].
  symmetry. apply Z.eqb_neq. lia.
Qed.

Lemma filter_sortBy t l :
  List.filter (fun m => (getTime m =? t)%Z) (sortBy newerFirst l) =
  List.filter (fun m => (getTime m =? t)%Z) l.
Proof.
  induction l as [|x rest IH]; cbn [sortBy foldr]; [done|].
  fold (sortBy newerFirst rest). rewrite filter_insertBy.
  cbn [List.filter]. by rewrite IH.
Qed.

Lemma filter_take_prefix {A} (f : A -> bool) n (l : list A) :
  List.filter f (take n l) `prefix_of` List.filter f l.
Proof.
  revert n; induction l as [|x l IH]; intros [|n]; cbn [take List.filter];
    try apply prefix_nil.
  destruct (f x); [by apply prefix_cons|done].
Qed.

(** X11: "Recent Activity" shows the three most recent materials, or all
    of them when there are fewer: it is sorted from the newest upload, no
    material left out is newer than one shown, and materials uploaded at
    the same time keep the order they have in the store. *)
Theorem recent_activity (materials : list StudyMaterial) :
  let recent := recentActivities getTime materials in
  length recent = (length materials `min` 3)%nat
  /\ StronglySorted (fun a b => (getTime b <= getTime a)%Z) recent
  /\ (exists others,
        materials ≡ₚ recent ++ others /\
        forall a b, a ∈ recent -> b ∈ others -> (getTime b <= getTime a)%Z)
  /\ (forall t,
        List.filter (fun m => (getTime m =? t)%Z) recent
        `prefix_of` List.filter (fun m => (getTime m =? t)%Z) materials).
Proof.
  intros recent. unfold recent, recentActivities.
  pose proof (sortBy_sorted materials) as Hs.
  pose proof (sortBy_Permutation materials) as Hp.
  set (sorted := sortBy newerFirst materials) in *.
  split; [|split; [|split]].
  - rewrite length_take, <- (Permutation_length Hp). lia.
  - rewrite <- (take_drop 3 sorted) in Hs.
    by apply StronglySorted_app_1_l in Hs.
  - exists (drop 3 sorted). split; [by rewrite take_drop|].
    intros a b Ha Hb. rewrite <- (take_drop 3 sorted) in Hs.
    by apply (StronglySorted_app_1_elem_of _ _ _ a b Hs).
  - intros t. rewrite <- (filter_sortBy t materials). apply filter_take_prefix.
Qed.

End RecentActivityFacts.

(** ** The upload form *)

Section HomePageFacts.
Import HomePage.

Lemma isSubmitDisabled_spec s :
  isSubmitDisabled s = isLoading s || isSuggestingMeta s || contentNotProvided s.
Proof.
  unfold isSubmitDisabled, contentNotProvided.
  destruct (isLoading s), (isSuggestingMeta s); cbn [orb]; try done.
  repeat (destruct (_ && _); cbn [orb]; try done).
Qed.

(** X12: the submit button is disabled exactly when the form is busy or
    the content of the selected kind is missing, so a submission through an
    enabled button is never refused with "Please provide the required
    content."; a form whose content is missing is refused and adds nothing;
    and the button "Suggest with AI" is enabled only when
    [handleSuggestMetadata] finds content to analyse. *)
Theorem enabled_buttons_pass_validation (now uploaded : Z)
    (extraction : Settled string) (suggestion : Settled Metadata) (s : State) :
  isSubmitDisabled s = isLoading s || isSuggestingMeta s || contentNotProvided s
  /\ (isSubmitDisabled s = false ->
        error (state (handleSubmit now uploaded extraction suggestion s))
          <> Some "Please provide the required content.")
  /\ (contentNotProvided s = true ->
        handleSubmit now uploaded extraction suggestion s =
        {| state := withStatus false
                      (Some "Please provide the required content.") s;
           added := None; navigatedTo := None |})
  /\ (isSuggestDisabled s = false -> is_Some (contentToAnalyze s))
  /\ (contentToAnalyze s = None -> isSuggestDisabled s = true).
Proof.
  assert (Hsuggest : isSuggestDisabled s = false -> is_Some (contentToAnalyze s)).
  { unfold isSuggestDisabled, contentToAnalyze.
    intros [[[_ Ht]%orb_false_iff Hy]%orb_false_iff Hf]%orb_false_iff.
    destruct (contentType s) eqn:E; cbn in *.
    - apply negb_false_iff in Ht. rewrite Ht. eauto.
    - apply negb_false_iff in Hy. rewrite Hy. eauto.
    - destruct (selectedFile s) as [f|]; [eauto|done]. }
  split; [apply isSubmitDisabled_spec|]. split; [|split; [|split]].
  - rewrite isSubmitDisabled_spec.
    intros [[_ _]%orb_false_iff Hc]%orb_false_iff.
    unfold handleSubmit. rewrite Hc.
    destruct (extract extraction s) as [[[[? ?] ?] ?]|]; [|done].
    by destruct (finalTitle suggestion s _).
  - intros Hc. unfold handleSubmit. by rewrite Hc.
  - exact Hsuggest.
  - intros Hn. destruct (isSuggestDisabled s) eqn:D; [done|].
    destruct (Hsuggest eq_refl) as [x Hx]. congruence.
Qed.

(** X13: however the gateway calls settle, [handleSubmit] leaves the form
    not loading and otherwise as it was, apart from the error; it adds a
    content exactly when it reports no error, and then navigates to the
    study page of that content; the content has the id "content_" followed
    by the clock reading, the details of the form, for pasted text the text
    as typed (never empty), and as title the title of the form, or else the
    suggested title, or "Untitled" when there is no text to suggest from. *)
Theorem submit_outcomes (now uploaded : Z) (extraction : Settled string)
    (suggestion : Settled Metadata) (s : State) :
  let o := handleSubmit now uploaded extraction suggestion s in
  isLoading (state o) = false
  /\ state o = withStatus false (error (state o)) s
  /\ (added o = None <-> is_Some (error (state o)))
  /\ navigatedTo o = (fun c => "/study/" +:+ content_id c) <$> added o
  /\ (forall c, added o = Some c ->
        content_id c = "content_" +:+ pretty now /\
        content_type c = contentType s /\
        content_subject c = subject s /\ content_topic c = topic s /\
        content_difficulty c = difficulty s /\ uploadDate c = uploaded /\
        (contentType s = text ->
           content_extractedText c = textContent s /\
           originalContent c = textContent s /\
           fileName c = None /\ fileMimeType c = None /\
           content_extractedText c <> "") /\
        (contentType s <> text ->
           extraction = Fulfilled (content_extractedText c)) /\
        (title s <> "" -> content_title c = title s) /\
        (title s = "" -> content_extractedText c = "" ->
           content_title c = "Untitled") /\
        (title s = "" -> content_extractedText c <> "" ->
           exists m, suggestion = Fulfilled m /\ content_title c = meta_title m))
  /\ (contentType s <> text -> extraction = Rejected -> added o = None)
  /\ (title s = "" -> suggestion = Rejected ->
      (forall c, added o = Some c -> content_extractedText c = "")).
Proof.
  intros o. unfold o, handleSubmit.
  assert (Htruthy : forall x, JS.truthy (Some x) = negb (String.eqb x ""))
    by reflexivity.
  destruct (contentNotProvided s) eqn:Hc; cbn.
  { repeat split; try done; try (intros; by eauto). }
  destruct (extract extraction s) as [[[[x orig] fname] mime]|] eqn:Ex; cbn.
  2: { repeat split; try done; try (intros; by eauto). }
  destruct (finalTitle suggestion s x) as [t|] eqn:Et; cbn.
  2: { repeat split; try done; try (intros; by eauto). }
  assert (Htext : contentType s = text ->
            x = textContent s /\ orig = textContent s /\ fname = None /\
            mime = None /\ x <> "").
  { intros E. unfold extract in Ex. rewrite E in Ex.
    injection Ex as <- <- <- <-. repeat split.
    intros Hx. unfold contentNotProvided, trimmedTruthy in Hc.
    rewrite E, Hx in Hc. done. }
  assert (Hother : contentType s <> text -> extraction = Fulfilled x).
  { intros N. unfold extract in Ex. destruct (contentType s) eqn:E; [done| |].
    - destruct extraction; [|done]. by injection Ex as <- _ _ _.
    - destruct (selectedFile s) eqn:F.
      + destruct extraction; [|done]. by injection Ex as <- _ _ _.
      + unfold contentNotProvided in Hc. rewrite E, F in Hc. done. }
  unfold finalTitle in Et. rewrite !Htruthy in Et.
  split; [done|]. split; [done|]. split; [split; [done|by intros [? [=]]]|].
  split; [done|]. split; [|split].
  - intros c [= <-]. cbn.
    do 6 (split; [done|]). split; [exact Htext|]. split; [exact Hother|].
    split; [|split].
    + intros N. destruct (String.eqb_spec (title s) ""); [done|].
      cbn in Et. by injection Et as <-.
    + intros Ht ->. rewrite Ht in Et. cbn in Et. by injection Et as <-.
    + intros Ht N. rewrite Ht in Et. cbn in Et.
      destruct (String.eqb_spec x ""); [done|].
      cbn in Et. destruct suggestion as [m|]; [|done].
      exists m. split; [done|]. by injection Et as <-.
  - intros N ->. by specialize (Hother N).
  - intros Ht -> c [= <-]. cbn. rewrite Ht in Et. cbn in Et.
    destruct (String.eqb_spec x ""); [done|]. done.
Qed.

End HomePageFacts.

(** ** The file name of the download *)

Section SafeFilenameFacts.
Import StudyPage.

Lemma safeChar_cleaned c :
  isSafeChar (JS.lowerChar (if isAlphanumeric c then c else "_"%char)) = true.
Proof. destruct c as [[] [] [] [] [] [] [] []]; reflexivity. Qed.

Lemma cleaned_fixed c :
  isSafeChar c = true ->
  JS.lowerChar (if isAlphanumeric c then c else "_"%char) = c.
Proof. destruct c as [[] [] [] [] [] [] [] []]; (reflexivity || discriminate). Qed.

Lemma allChars_cleaned s :
  allChars isSafeChar (JS.toLowerCase (replaceNonAlphanumeric s)) = true.
Proof.
  induction s as [|c s IH]; cbn [replaceNonAlphanumeric JS.toLowerCase allChars];
    [done|].
  by rewrite safeChar_cleaned, IH.
Qed.

Lemma length_cleaned s :
  String.length (JS.toLowerCase (replaceNonAlphanumeric s)) = String.length s.
Proof.
  induction s as [|c s IH];
    cbn [replaceNonAlphanumeric JS.toLowerCase String.length]; [done|].
  by rewrite IH.
Qed.

Lemma cleaned_idem s :
  allChars isSafeChar s = true ->
  JS.toLowerCase (replaceNonAlphanumeric s) = s.
Proof.
  induction s as [|c s IH];
    cbn [replaceNonAlphanumeric JS.toLowerCase allChars]; [done|].
  intros [Hc Hs]%andb_true_iff. by rewrite cleaned_fixed, IH.
Qed.

Lemma truthy_length s : JS.truthy (Some s) = true <-> (0 < String.length s)%nat.
Proof. destruct s; cbn; split; (done || lia). Qed.

(** X14: the file name of the downloaded presentation is never empty, is
    as long as the title (as "presentation" for an empty title), is made of
    lower-case letters, digits and underscores only, and is left unchanged
    when it is cleaned again. *)
Theorem safe_filename (title : string) :
  let source := if JS.truthy (Some title) then title else "presentation" in
  allChars isSafeChar (safeFilename title) = true
  /\ String.length (safeFilename title) = String.length source
  /\ safeFilename title <> ""
  /\ safeFilename (safeFilename title) = safeFilename title.
Proof.
  intros source. unfold safeFilename. fold source.
  assert (Hpos : (0 < String.length source)%nat).
  { unfold source. destruct (JS.truthy (Some title)) eqn:T.
    - by apply truthy_length.
    - cbn. lia. }
  assert (Hne : JS.toLowerCase (replaceNonAlphanumeric source) <> "").
  { intros E. pose proof (length_cleaned source) as L. rewrite E in L.
    cbn in L. lia. }
  split; [apply allChars_cleaned|]. split; [apply length_cleaned|].
  split; [done|].
  replace (JS.truthy (Some (JS.toLowerCase (replaceNonAlphanumeric source))))
    with true.
  - apply cleaned_idem, allChars_cleaned.
  - symmetry. apply truthy_length. rewrite length_cleaned. done.
Qed.

End SafeFilenameFacts.

(** ** The video player *)

Section VideoPlayerFacts.
Import StudyPage.
Variable scenes : list VideoScene.

Lemma speaking_scripted (k : nat) :
  forallb (fun scene => JS.truthy (script scene)) scenes = true ->
  (k < length scenes)%nat ->
  speaking scenes {| currentSceneIndex := Z.of_nat k; isPlaying := true |} = true.
Proof.
  intros Hall Hk. unfold speaking, sceneAt. cbn.
  replace (Z.of_nat k <? 0)%Z with false by (symmetry; apply Z.ltb_ge; lia).
  rewrite Nat2Z.id.
  destruct (lookup_lt_is_Some_2 scenes k Hk) as [scene Hs]. rewrite Hs.
  rewrite forallb_forall in Hall. apply Hall.
  apply list_elem_of_In. by eapply list_elem_of_lookup_2.
Qed.

Lemma playerRun_snoc events e p :
  playerRun scenes (events ++ [e]) p = playerStep scenes e (playerRun scenes events p).
Proof. unfold playerRun. by rewrite fold_left_app. Qed.

Lemma play_through_prefix (k : nat) :
  forallb (fun scene => JS.truthy (script scene)) scenes = true ->
  (k < length scenes)%nat ->
  playerRun scenes (PlayPauseClicked :: replicate k UtteranceEnded)
    {| currentSceneIndex := 0; isPlaying := false |}
  = {| currentSceneIndex := Z.of_nat k; isPlaying := true |}.
Proof.
  intros Hall. induction k as [|k IH]; intros Hk.
  - pose proof (speaking_scripted 0 Hall Hk) as S0. change (Z.of_nat 0) with 0%Z in S0.
    cbn [replicate playerRun fold_left].
    unfold playerStep, handlePlayPause, speakEffect.
    cbn [isPlaying currentSceneIndex negb andb].
    replace (if (0 =? Z.of_nat (length scenes) - 1)%Z then 0%Z else 0%Z)
      with 0%Z by (by destruct (_ =? _)%Z).
    by rewrite S0.
  - rewrite replicate_S_end, app_comm_cons, playerRun_snoc, IH by lia.
    unfold playerStep, onend, speakEffect.
    rewrite (speaking_scripted k Hall ltac:(lia)). cbn [isPlaying currentSceneIndex andb].
    replace (Z.of_nat k <? Z.of_nat (length scenes) - 1)%Z with true
      by (symmetry; apply Z.ltb_lt; lia).
    cbn [negb isPlaying].
    replace (Z.of_nat k + 1)%Z with (Z.of_nat (S k)) by lia.
    by rewrite (speaking_scripted (S k) Hall Hk).
Qed.

(** X15: when every scene has a script, pressing play on the first scene
    and letting each utterance end plays the scenes in order: after [k]
    utterances the player is playing scene [k]; after the last one it
    stops on the last scene; pressing play there starts again from the
    first scene. *)
Theorem play_through (n : nat) :
  forallb (fun scene => JS.truthy (script scene)) scenes = true ->
  length scenes = S n ->
  let start := {| currentSceneIndex := 0; isPlaying := false |} in
  (forall k, (k <= n)%nat ->
     playerRun scenes (PlayPauseClicked :: replicate k UtteranceEnded) start
     = {| currentSceneIndex := Z.of_nat k; isPlaying := true |})
  /\ playerRun scenes (PlayPauseClicked :: replicate (S n) UtteranceEnded) start
     = {| currentSceneIndex := Z.of_nat n; isPlaying := false |}
  /\ playerStep scenes PlayPauseClicked
       {| currentSceneIndex := Z.of_nat n; isPlaying := false |}
     = {| currentSceneIndex := 0; isPlaying := true |}.
Proof.
  intros Hall Hn start. split; [|split].
  - intros k Hk. apply play_through_prefix; [done|lia].
  - rewrite replicate_S_end, app_comm_cons, playerRun_snoc.
    unfold start. rewrite play_through_prefix by (done || lia).
    unfold playerStep, onend, speakEffect.
    rewrite (speaking_scripted n Hall ltac:(lia)).
    cbn [isPlaying currentSceneIndex andb].
    replace (Z.of_nat n <? Z.of_nat (length scenes) - 1)%Z with false
      by (symmetry; apply Z.ltb_ge; lia).
    reflexivity.
  - unfold playerStep, handlePlayPause, speakEffect.
    cbn [isPlaying currentSceneIndex negb andb].
    replace (Z.of_nat n =? Z.of_nat (length scenes) - 1)%Z with true
      by (symmetry; apply Z.eqb_eq; lia).
    pose proof (speaking_scripted 0 Hall ltac:(lia)) as S0.
    change (Z.of_nat 0) with 0%Z in S0. by rewrite S0.
Qed.

Lemma speakEffect_spec p :
  currentSceneIndex (speakEffect scenes p) = currentSceneIndex p /\
  (isPlaying (speakEffect scenes p) = true ->
   speaking scenes (speakEffect scenes p) = true).
Proof.
  unfold speakEffect. destruct (isPlaying p) eqn:P; cbn [negb].
  - destruct (speaking scenes p) eqn:S; cbn; [done|]. split; [done|done].
  - split; [done|]. by rewrite P.
Qed.

(** X16: whatever is clicked and whenever an utterance ends, the scene
    index stays within the scene list, so there is always a scene to show;
    and after any event a player that is playing is speaking a scene that
    has a script. *)
Theorem player_in_range (events : list PlayerEvent) (p : Player) :
  (0 <= currentSceneIndex p < Z.of_nat (length scenes))%Z ->
  let p' := playerRun scenes events p in
  (0 <= currentSceneIndex p' < Z.of_nat (length scenes))%Z
  /\ is_Some (sceneAt scenes (currentSceneIndex p'))
  /\ (events <> [] -> isPlaying p' = true -> speaking scenes p' = true).
Proof.
  intros R p'. unfold p'. clear p'.
  induction events as [|e events IH] using rev_ind.
  - cbn. split; [done|]. split; [|done].
    unfold sceneAt.
    replace (currentSceneIndex p <? 0)%Z with false
      by (symmetry; apply Z.ltb_ge; lia).
    apply lookup_lt_is_Some. lia.
  - rewrite playerRun_snoc. destruct IH as (R' & _ & _).
    set (q := playerRun scenes events p) in *.
    destruct (speakEffect_spec
                match e with
                | PlayPauseClicked => handlePlayPause scenes q
                | SkipClicked direction => handleSkip scenes direction q
                | UtteranceEnded => onend scenes q
                end) as [Hi Hs].
    assert (Hr : (0 <= currentSceneIndex (playerStep scenes e q)
                  < Z.of_nat (length scenes))%Z).
    { unfold playerStep. rewrite Hi.
      destruct e as [|[]|]; cbn.
      - destruct (_ && _); lia.
      - lia.
      - lia.
      - unfold onend. destruct (speaking scenes q); [|done].
        destruct (isPlaying q && _) eqn:B; cbn; [|done].
        apply andb_true_iff in B as [_ B%Z.ltb_lt]. lia. }
    split; [done|]. split.
    + unfold sceneAt.
      replace (currentSceneIndex (playerStep scenes e q) <? 0)%Z with false
        by (symmetry; apply Z.ltb_ge; lia).
      apply lookup_lt_is_Some. lia.
    + intros _. exact Hs.
Qed.

End VideoPlayerFacts.

(** ** The links of the header *)

Section HeaderFacts.
Import StudyPage App.

Lemma stripPrefix_Some p s rest : stripPrefix p s = Some rest -> s = p +:+ rest.
Proof.
  revert s; induction p as [|a p IH]; intros [|b s]; cbn [stripPrefix]; try done.
  - by intros [= <-].
  - by intros [= <-].
  - destruct (Ascii.eqb_spec a b) as [->|]; [|done].
    intros H%IH. by rewrite H.
Qed.

Lemma stripPrefix_app p rest : stripPrefix p (p +:+ rest) = Some rest.
Proof.
  induction p as [|a p IH]; [done|].
  change (String a p +:+ rest) with (String a (p +:+ rest)).
  cbn [stripPrefix]. by rewrite Ascii.eqb_refl.
Qed.

Lemma split_word s : allChars isWordChar s = true -> split s = [s].
Proof.
  induction s as [|c s IH]; cbn [allChars split]; [done|].
  intros [Hc Hs]%andb_true_iff. rewrite (IH Hs).
  destruct (Ascii.eqb_spec c "/") as [->|]; [done|done].
Qed.

Lemma allChars_app p a b :
  allChars p (a +:+ b) = allChars p a && allChars p b.
Proof.
  induction a as [|c a IH]; [done|].
  change (String c a +:+ b) with (String c (a +:+ b)).
  cbn [allChars]. by rewrite IH, andb_assoc.
Qed.

Lemma wordChar_digit x : isWordChar (pretty_N_char x) = true.
Proof.
  destruct x as [|p]; [done|].
  do 4 (destruct p as [p|p|]; try reflexivity).
Qed.

Lemma allChars_pretty_N_go x : forall s,
  allChars isWordChar s = true -> allChars isWordChar (pretty_N_go x s) = true.
Proof.
  induction (N.lt_wf_0 x) as [x _ IH]; intros s Hs.
  destruct (decide (x = 0)%N) as [->|].
  - by rewrite pretty_N_go_0.
  - rewrite pretty_N_go_step by lia. apply IH.
    + apply N.div_lt; lia.
    + cbn [allChars]. by rewrite wordChar_digit, Hs.
Qed.

Lemma allChars_pretty_Z z : (0 <= z)%Z -> allChars isWordChar (pretty z) = true.
Proof.
  destruct z as [|x|x]; [done| |lia]. intros _.
  unfold pretty, pretty_Z, pretty, pretty_positive, pretty, pretty_N.
  destruct (decide _); [done|]. by apply allChars_pretty_N_go.
Qed.

(** X17: the header finds a content id exactly in the paths "/study/" or
    "/quiz/" followed by a non-empty id of letters, digits and underscores,
    and the id it finds is that one; so it shows the study and quiz links
    on the page to which [HomePage] navigates after it has added a
    content. *)
Theorem header_content_id (pathname id : string) (now : Z) :
  (headerContentId pathname = Some id ->
     (pathname = "/study/" +:+ id \/ pathname = "/quiz/" +:+ id) /\
     id <> "" /\ allChars isWordChar id = true)
  /\ (id <> "" -> allChars isWordChar id = true ->
        headerContentId ("/study/" +:+ id) = Some id /\
        headerContentId ("/quiz/" +:+ id) = Some id)
  /\ (forall uploaded extraction suggestion s c route,
        (0 <= now)%Z ->
        HomePage.added
          (HomePage.handleSubmit now uploaded extraction suggestion s) = Some c ->
        HomePage.navigatedTo
          (HomePage.handleSubmit now uploaded extraction suggestion s)
          = Some route ->
        headerContentId route = Some (HomePage.content_id c)).
Proof.
  assert (Hfwd : forall id', id' <> "" -> allChars isWordChar id' = true ->
            headerContentId ("/study/" +:+ id') = Some id' /\
            headerContentId ("/quiz/" +:+ id') = Some id').
  { intros id' Hne Hw. unfold headerContentId, contentPathRegex_test.
    rewrite !stripPrefix_app.
    assert (Hq : stripPrefix "/study/" ("/quiz/" +:+ id') = None) by done.
    rewrite Hq, Hw.
    replace (id' =? "") with false by (symmetry; by apply String.eqb_neq).
    cbn [negb andb]. split.
    - change ("/study/" +:+ id') with
        (String "/" (String "s" (String "t" (String "u" (String "d"
          (String "y" (String "/" id'))))))).
      cbn [split Ascii.eqb Bool.eqb]. by rewrite (split_word id' Hw).
    - change ("/quiz/" +:+ id') with
        (String "/" (String "q" (String "u" (String "i" (String "z"
          (String "/" id')))))).
      cbn [split Ascii.eqb Bool.eqb]. by rewrite (split_word id' Hw). }
  split; [|split; [apply Hfwd|]].
  - unfold headerContentId, contentPathRegex_test.
    destruct (stripPrefix "/study/" pathname) as [rest|] eqn:Es.
    + destruct (negb (rest =? "") && allChars isWordChar rest) eqn:B; [|done].
      apply andb_true_iff in B as [Hne%negb_true_iff%String.eqb_neq Hw].
      apply stripPrefix_Some in Es. subst pathname.
      destruct (Hfwd rest Hne Hw) as [Hs _].
      unfold headerContentId, contentPathRegex_test in Hs.
      rewrite stripPrefix_app, Hw in Hs.
      replace (rest =? "") with false in Hs
        by (symmetry; by apply String.eqb_neq).
      cbn [negb andb] in Hs. rewrite Hs. intros [= <-]. auto.
    + destruct (stripPrefix "/quiz/" pathname) as [rest|] eqn:Eq; [|done].
      destruct (negb (rest =? "") && allChars isWordChar rest) eqn:B; [|done].
      apply andb_true_iff in B as [Hne%negb_true_iff%String.eqb_neq Hw].
      apply stripPrefix_Some in Eq. subst pathname.
      destruct (Hfwd rest Hne Hw) as [_ Hs].
      unfold headerContentId, contentPathRegex_test in Hs.
      rewrite stripPrefix_app, Hw in Hs.
      assert (Hq : stripPrefix "/study/" ("/quiz/" +:+ rest) = None) by done.
      rewrite Hq in Hs.
      replace (rest =? "") with false in Hs
        by (symmetry; by apply String.eqb_neq).
      cbn [negb andb] in Hs. rewrite Hs. intros [= <-]. auto.
  - intros uploaded extraction suggestion s c route Hnow Hc Hr.
    destruct (submit_outcomes now uploaded extraction suggestion s)
      as (_ & _ & _ & Hnav & Hid & _).
    rewrite Hc in Hnav. cbn in Hnav. rewrite Hnav in Hr. injection Hr as <-.
    destruct (Hid c Hc) as (-> & _).
    apply Hfwd; [done|].
    rewrite allChars_app. rewrite allChars_pretty_Z by done. done.
Qed.

End HeaderFacts.

(** ** The further properties at the sample data *)

Lemma results_terminal_witness :
  quizState (page Examples.withoutKey) = results /\
  awaitingQuestions Examples.withoutKey = [] /\
  awaitingFeedback Examples.withoutKey = [] /\
  Session.sameOutcome Examples.withoutKey
    (run (constants := Sample.constants) Examples.events Examples.withoutKey).
Proof.
  do 3 (split; [reflexivity|]).
  exact (results_terminal (constants := Sample.constants) Examples.events
           Examples.withoutKey eq_refl eq_refl eq_refl).
Defined.



Lemma score_within_questions_witness :
  quizState (page Sample.session) = taking /\
  awaitingQuestions Sample.session = [] /\
  awaitingFeedback Sample.session = [] /\
  contentId (page Sample.session) = Some "m1" /\
  JS.truthy (Some "m1") = true /\
  length (questions (page (run (constants := Sample.constants) Examples.events
                             Sample.session)))
  = length (questions (page Sample.session)).
Proof.
  do 5 (split; [reflexivity|]).
  exact (proj1 (score_within_questions (constants := Sample.constants)
                  Examples.events Sample.session "m1"
                  eq_refl eq_refl eq_refl eq_refl eq_refl)).
Defined.

Lemma navigation_in_range_witness :
  awaitingQuestions Sample.session = [] /\
  (0 <= currentQuestionIndex (page Sample.session)
   < Z.of_nat (length (questions (page Sample.session))))%Z /\
  is_Some (QuizView.currentQ
             (page (run (constants := Sample.constants) Examples.events
                      Sample.session))).
Proof.
  split; [reflexivity|]. split; [cbn; lia|].
  destruct (navigation_in_range (constants := Sample.constants) Examples.events
              Sample.session eq_refl ltac:(cbn; lia)) as (_ & Hq & _).
  exact Hq.
Defined.

Lemma timer_text_minutes_seconds_witness :
  (0 <= 125)%Z /\
  exists minutes tens units : Z,
    (0 <= minutes /\ 0 <= tens < 6 /\ 0 <= units < 10)%Z /\
    (60 * minutes + 10 * tens + units = 125)%Z /\
    QuizView.timerText 125 =
      pretty minutes +:+ ":" +:+ pretty tens +:+ pretty units.
Proof.
  split; [lia|]. apply (timer_text_minutes_seconds 125). lia.
Defined.

Lemma grading_ignores_case_and_padding_witness :
  Blank.blank "  " = true /\ Blank.blank " " = true /\
  isCorrect (grade (<[question_id Sample.capital := "  " +:+ "Paris" +:+ " "]> ∅)
               Sample.capital)
  = isCorrect (grade (<[question_id Sample.capital := "Paris"]> ∅) Sample.capital).
Proof.
  split; [reflexivity|]. split; [reflexivity|].
  exact (proj1 (grading_ignores_case_and_padding ∅ Sample.capital "Paris"
                  "  " " " eq_refl eq_refl)).
Defined.

Lemma average_totals_bounded_witness :
  forallb (fun quiz => match quiz_score quiz with
                       | Some n => (n <=? length (quiz_questions quiz))%nat
                       | None => true
                       end) (storedQuizzes Sample.dashboard) = true /\
  ((fold_left (countMaterial Sample.dashboard)
      (studyMaterials Sample.dashboard) (0, 0)%nat).1
   <= (fold_left (countMaterial Sample.dashboard)
         (studyMaterials Sample.dashboard) (0, 0)%nat).2)%nat.
Proof.
  split; [reflexivity|].
  exact (average_totals_bounded Sample.dashboard eq_refl).
Defined.

Lemma play_through_witness :
  forallb (fun scene => JS.truthy (StudyPage.script scene)) Examples.scenes = true /\
  length Examples.scenes = 3%nat /\
  StudyPage.playerRun Examples.scenes
    (StudyPage.PlayPauseClicked :: replicate 3 StudyPage.UtteranceEnded)
    {| StudyPage.currentSceneIndex := 0; StudyPage.isPlaying := false |}
  = {| StudyPage.currentSceneIndex := 2; StudyPage.isPlaying := false |}.
Proof.
  split; [reflexivity|]. split; [reflexivity|].
  destruct (play_through Examples.scenes 2 eq_refl eq_refl) as (_ & Hend & _).
  exact Hend.
Defined.

Lemma player_in_range_witness :
  (0 <= 1 < Z.of_nat (length Examples.scenes))%Z /\
  is_Some (StudyPage.sceneAt Examples.scenes
             (StudyPage.currentSceneIndex
                (StudyPage.playerRun Examples.scenes
                   [StudyPage.SkipClicked StudyPage.next;
                    StudyPage.SkipClicked StudyPage.next;
                    StudyPage.PlayPauseClicked]
                   {| StudyPage.currentSceneIndex := 1;
                      StudyPage.isPlaying := false |}))).
Proof.
  split; [cbn; lia|].
  destruct (player_in_range Examples.scenes
              [StudyPage.SkipClicked StudyPage.next;
               StudyPage.SkipClicked StudyPage.next;
               StudyPage.PlayPauseClicked]
              {| StudyPage.currentSceneIndex := 1; StudyPage.isPlaying := false |}
              ltac:(cbn; lia)) as (_ & Hscene & _).
  exact Hscene.
Defined.
